(** * QA_Deploy: the serving callbacks and the deployment cells

    A shallow embedding of the code cells of [nlp/QA_Deploy.ipynb]:
    the two hosting callbacks [model_fn] and [transform_fn] written to
    [code/serve.py], the cell that archives the model into
    [model.tar.gz], the cells that write the Dockerfile and build the
    container image, and the cells that launch, query and remove the
    endpoint.

    The notebook is glue over imported libraries (gluonnlp, mxnet, the
    BERT scripts, json, tarfile, the SageMaker SDK).  Their functions are
    the fields of the records [Runtime], [Host] and [Cloud]: each returns
    a [result], either a value or the Python exception it raises.  The
    callbacks and cells run in a small monad that threads the outcome and
    records every fallible operation, in order, in a trace.

    Module-qualified names of the source ([bert_qa_evaluate.predict],
    [nlp.data.BERTTokenizer], ...) denote the fields of the same name.
    The cell imports [bert.bert_qa_evaluate] and refers to the module as
    [bert_qa_evaluate]: a name that does not resolve in the session is one
    more exception the field may raise, at the place of its first use. *)

From Stdlib Require Import String Ascii List Bool Arith ZArith Lia.
From Stdlib Require Import Floats.PrimFloat Floats.SpecFloat Floats.FloatOps.
From Stdlib Require Import DecimalString.
Import ListNotations.
Open Scope string_scope.
Open Scope list_scope.
Open Scope nat_scope.

Set Warnings "-register-all".

(** ** Exceptions and results *)

(** The exception classes the interpreter itself raises in this code, and
    a constructor for the classes of the imported libraries, which derive
    from none of the former. *)
Inductive exn : Type :=
| ValueError
| TypeError
| IndexError
| FileNotFoundError
| StopIteration
| LibraryError (name : string).

(** The exceptions that end an iteration over an object without
    [__iter__]: Python reads such an object item by item, [o[0]], [o[1]],
    ..., and takes an IndexError or a StopIteration out of an access as
    the end of the data. *)
Definition ends_iteration (e : exn) : bool :=
  match e with
  | IndexError => true
  | StopIteration => true
  | _ => false
  end.

Inductive result (A : Type) : Type :=
| Ok (a : A)
| Raise (e : exn).

Arguments Ok {A} a.
Arguments Raise {A} e.

Definition raised {A : Type} (r : result A) : option exn :=
  match r with
  | Ok _ => None
  | Raise e => Some e
  end.

(** ** Operations that may raise, as they appear in the trace *)

Inductive op : Type :=
(* interpreter *)
| OpUnpackModel                      (* net, vocab, squadTransform = model *)
| OpIndex (i : nat)                  (* nbest[i] *)
(* json *)
| OpJsonLoads (s : string)
| OpJsonDumps
(* mxnet, gluonnlp and the BERT scripts *)
| OpCpu
| OpGetModel
| OpBertForQA
| OpLoadParameters (path : string)
| OpBERTTokenizer
| OpSQuADTransform
| OpTestExampleTransform
| OpSimpleDataset
| OpGetAllResults
| OpTransformAttr                    (* squadTransform._transform *)
| OpDatasetTransform
| OpNext                             (* one step of the for loop's iterator *)
| OpExampleId                        (* features[0].example_id *)
| OpResultsLookup                    (* all_results[f_id] *)
| OpBERTBasicTokenizer
| OpPredict
(* tarfile *)
| OpTarOpen (name mode : string)
| OpTarAdd (name : string)
| OpTarClose
(* IPython: %%writefile name, and !command *)
| OpWriteFile (name : string)
| OpSystem (command : list string)
(* SageMaker SDK *)
| OpGetExecutionRole
| OpMXNetModel
| OpDeploy
| OpPredictorPredict
| OpPrintOutput
| OpDeleteEndpoint.

Definition event : Type := op * option exn.
Definition trace : Type := list event.

(** ** The monad: a trace and an outcome *)

Definition M (A : Type) : Type := trace * result A.

Definition ret {A : Type} (a : A) : M A := ([], Ok a).

Definition bind {A B : Type} (m : M A) (f : A -> M B) : M B :=
  match m with
  | (t, Ok a) => let (t', r) := f a in (t ++ t', r)
  | (t, Raise e) => (t, Raise e)
  end.

(** A fallible operation: its outcome is logged and becomes the outcome
    of the step. *)
Definition call {A : Type} (o : op) (r : result A) : M A :=
  ([(o, raised r)], r).

Arguments ret : simpl never.
Arguments bind : simpl never.
Arguments call : simpl never.

Definition events {A : Type} (m : M A) : trace := fst m.
Definition outcome {A : Type} (m : M A) : result A := snd m.

Definition result_map {A B : Type} (f : A -> B) (r : result A) : result B :=
  match r with
  | Ok a => Ok (f a)
  | Raise e => Raise e
  end.

(** No event of the trace raised. *)
Definition quiet (t : trace) : Prop := Forall (fun ev => snd ev = None) t.

Declare Scope py_scope.
Delimit Scope py_scope with py.
Notation "x <- m ;; k" := (bind m (fun x => k))
  (at level 61, m at next level, right associativity) : py_scope.
Notation "' pat <- m ;; k" := (bind m (fun x => match x with pat => k end))
  (at level 61, pat pattern, m at next level, right associativity) : py_scope.
Open Scope py_scope.

(** ** Python values that reach the callbacks untyped *)

(** [model] and the two content types are whatever the hosting runtime
    passes: the callbacks do not check them.  [PyObj] is a reference to
    an object of an imported library. *)
Inductive pyobj (O : Type) : Type :=
| PyNone
| PyStr (s : string)
| PyTuple (items : list (pyobj O))
| PyList (items : list (pyobj O))
| PyObj (o : O).

Arguments PyNone {O}.
Arguments PyStr {O} s.
Arguments PyTuple {O} items.
Arguments PyList {O} items.
Arguments PyObj {O} o.

(** A [string] holds the UTF-8 bytes of a text.  A byte of the form
    10xxxxxx continues the character begun before it. *)
Definition is_continuation (c : ascii) : bool :=
  (128 <=? nat_of_ascii c) && (nat_of_ascii c <? 192).

(** The characters of a text, each with the bytes that encode it. *)
Fixpoint characters (s : string) : list string :=
  match s with
  | EmptyString => []
  | String c s' =>
      let continued :=
        match s' with
        | String c' _ => is_continuation c'
        | EmptyString => false
        end in
      match characters s' with
      | ch :: chs =>
          if continued then String c ch :: chs
          else String c EmptyString :: ch :: chs
      | [] => [String c EmptyString]
      end
  end.

(** [l[i]] for a list and a non-negative index. *)
Definition index {A : Type} (l : list A) (i : nat) : result A :=
  match nth_error l i with
  | Some a => Ok a
  | None => Raise IndexError
  end.

(** ** The imported libraries *)

Record Runtime : Type := {
  (** objects of the libraries: networks, vocabularies, tokenizers,
      datasets, contexts, decoded JSON *)
  Obj : Type;
  (** what [features[0].example_id] holds, used as a dictionary key *)
  ExampleId : Type;
  eid_eqb : ExampleId -> ExampleId -> bool;
  (** what an unpacking assignment reads out of a library object: its
      items, or the exception raised on the way (TypeError for an object
      that cannot be iterated) *)
  unpack_items : Obj -> result (list (pyobj Obj));
  (** the second component of an n-best entry *)
  Prob : Type;
  (** [x * 100] and ['%.2f' % x] on such a number *)
  times100 : Prob -> Prob;
  fmt_2f : Prob -> string;
  (** json *)
  json_loads : string -> result Obj;
  json_dumps : list (ExampleId * list string) -> result string;
  (** mx.cpu() *)
  cpu : result Obj;
  (** nlp.model.get_model('bert_12_768_12', ...): bert_model, vocab *)
  get_model : result (Obj * Obj);
  BertForQA : Obj -> result Obj;
  (** net.load_parameters(path, ctx): the network after loading *)
  load_parameters : Obj -> string -> Obj -> result Obj;
  BERTTokenizer : Obj -> result Obj;
  SQuADTransform : Obj -> result Obj;
  _test_example_transform : Obj -> result Obj;
  SimpleDataset : Obj -> result Obj;
  get_all_results :
    pyobj Obj -> pyobj Obj -> pyobj Obj -> Obj -> Obj -> result Obj;
  (** squadTransform._transform *)
  _transform : pyobj Obj -> result Obj;
  (** test_dataset.transform(fn): a lazily transformed dataset *)
  dataset_transform : Obj -> Obj -> result Obj;
  (** the item accesses [data_transform[0]], [data_transform[1]], ...
      that iterating over such a dataset makes (it has no [__iter__]),
      one outcome for each index of the underlying data: the item, or
      the exception the lazy transform raises on it; the access after
      the last index raises IndexError *)
  getitems : Obj -> list (result Obj);
  example_id : Obj -> result ExampleId;
  results_lookup : Obj -> ExampleId -> result Obj;
  BERTBasicTokenizer : pyobj Obj -> result Obj;
  (** bert_qa_evaluate.predict(features, results, tokenizer):
      prediction, nbest *)
  predict : Obj -> Obj -> Obj -> result (Obj * list (string * Prob))
}.

(** A Python value over the objects of a runtime. *)
Definition value (R : Runtime) : Type := pyobj (Obj R).

(** The items an unpacking assignment reads out of a value: those of a
    tuple or a list, the characters of a string, what the library gives
    for one of its objects; [None] cannot be iterated. *)
Definition iter_items {R : Runtime} (v : value R)
  : result (list (value R)) :=
  match v with
  | PyTuple l => Ok l
  | PyList l => Ok l
  | PyStr s => Ok (map PyStr (characters s))
  | PyNone => Raise TypeError
  | PyObj o => unpack_items R o
  end.

(** [a, b, c = v] *)
Definition unpack3 {R : Runtime} (v : value R)
  : result (value R * value R * value R) :=
  match iter_items v with
  | Ok [a; b; c] => Ok (a, b, c)
  | Ok _ => Raise ValueError
  | Raise e => Raise e
  end.

(** What a [for] statement receives from a list of item accesses: the
    items up to the first access that raises; an exception that ends the
    iteration is not passed on, any other one is. *)
Fixpoint received {A : Type} (accesses : list (result A))
  : list (result A) :=
  match accesses with
  | [] => []
  | Ok a :: accesses' => Ok a :: received accesses'
  | Raise e :: _ => if ends_iteration e then [] else [Raise e]
  end.

(** What [for features in data_transform] receives, step by step. *)
Definition iterate (R : Runtime) (d : Obj R) : list (result (Obj R)) :=
  received (getitems R d).

Section Serve.

Variable R : Runtime.

(** *** model_fn *)

(** [def model_fn(params_path, model_dir = ""):] *)
Definition model_fn (params_path : string) (model_dir : string)
  : M (value R) :=
  '(bert_model, vocab) <- call OpGetModel (get_model R) ;;
  net <- call OpBertForQA (BertForQA R bert_model) ;;
  let params_path :=
    if (0 <? String.length model_dir)%nat
    then (model_dir ++ "/" ++ params_path)%string
    else params_path in
  ctx <- call OpCpu (cpu R) ;;
  net <- call (OpLoadParameters params_path)
              (load_parameters R net params_path ctx) ;;
  tokenizer <- call OpBERTTokenizer (BERTTokenizer R vocab) ;;
  transform <- call OpSQuADTransform (SQuADTransform R tokenizer) ;;
  ret (PyTuple [PyObj net; PyObj vocab; PyObj transform]).

(** *** transform_fn *)

Definition tab : string := String (ascii_of_nat 9) EmptyString.

(** ['%.2f%% \t %s' % (x, text)] *)
Definition format_prediction (x : Prob R) (text : string) : string :=
  (fmt_2f R x ++ "% " ++ tab ++ " " ++ text)%string.

(** [all_predictions[f_id] = nbest_prediction] on a dictionary kept in
    insertion order: an existing key keeps its place. *)
Fixpoint dict_set (f_id : ExampleId R) (v : list string)
    (d : list (ExampleId R * list string)) : list (ExampleId R * list string) :=
  match d with
  | [] => [(f_id, v)]
  | (k, w) :: d' =>
      if eid_eqb R k f_id then (k, v) :: d' else (k, w) :: dict_set f_id v d'
  end.

(** [for i in range(3): nbest_prediction.append(... nbest[i][1] * 100,
    nbest[i][0] ...)], over the indices still to visit. *)
Fixpoint nbest_loop (nbest : list (string * Prob R)) (range : list nat)
    (nbest_prediction : list string) : M (list string) :=
  match range with
  | [] => ret nbest_prediction
  | i :: range' =>
      e1 <- call (OpIndex i) (index nbest i) ;;
      e0 <- call (OpIndex i) (index nbest i) ;;
      nbest_loop nbest range'
        (nbest_prediction ++ [format_prediction (times100 R (snd e1)) (fst e0)])
  end.

(** [for features in data_transform: ...], over the steps the iterator
    still has to make. *)
Fixpoint features_loop (vocab : value R) (all_results : Obj R)
    (steps : list (result (Obj R)))
    (all_predictions : list (ExampleId R * list string))
  : M (list (ExampleId R * list string)) :=
  match steps with
  | [] => ret all_predictions
  | step :: steps' =>
      features <- call OpNext step ;;
      f_id <- call OpExampleId (example_id R features) ;;
      results <- call OpResultsLookup (results_lookup R all_results f_id) ;;
      tokenizer <- call OpBERTBasicTokenizer (BERTBasicTokenizer R vocab) ;;
      '(prediction, nbest) <-
          call OpPredict (predict R features results tokenizer) ;;
      nbest_prediction <- nbest_loop nbest (seq 0 3) [] ;;
      features_loop vocab all_results steps'
        (dict_set f_id nbest_prediction all_predictions)
  end.

(** The body of [transform_fn] up to the line that serialises
    [all_predictions]. *)
Definition transform_fn_predictions (model : value R) (input_data : string)
  : M (list (ExampleId R * list string)) :=
  '(net, vocab, squadTransform) <- call OpUnpackModel (unpack3 model) ;;
  data <- call (OpJsonLoads input_data) (json_loads R input_data) ;;
  test_examples_tuples <-
    call OpTestExampleTransform (_test_example_transform R data) ;;
  test_dataset <- call OpSimpleDataset (SimpleDataset R test_examples_tuples) ;;
  ctx <- call OpCpu (cpu R) ;;
  all_results <-
    call OpGetAllResults
         (get_all_results R net vocab squadTransform test_dataset ctx) ;;
  fn <- call OpTransformAttr (_transform R squadTransform) ;;
  data_transform <-
    call OpDatasetTransform (dataset_transform R test_dataset fn) ;;
  features_loop vocab all_results (iterate R data_transform) [].

(** [def transform_fn(model, input_data, input_content_type=None,
    output_content_type=None):] *)
Definition transform_fn (model : value R) (input_data : string)
    (input_content_type output_content_type : value R)
  : M (string * value R) :=
  all_predictions <- transform_fn_predictions model input_data ;;
  response_body <- call OpJsonDumps (json_dumps R all_predictions) ;;
  ret (response_body, output_content_type).

(** *** Reading the dictionary *)

(** The string stored for one n-best entry. *)
Definition entry_string (e : string * Prob R) : string :=
  format_prediction (times100 R (snd e)) (fst e).

(** Every list stored in the dictionary is made of the first three
    entries of an n-best list that [predict] returned. *)
Definition stored_from_nbest (d : list (ExampleId R * list string)) : Prop :=
  forall (k : ExampleId R) (l : list string),
    In (k, l) d ->
    exists features results tokenizer prediction nbest,
      predict R features results tokenizer = Ok (prediction, nbest) /\
      3 <= length nbest /\
      l = map entry_string (firstn 3 nbest).

End Serve.

(** ** The archiving cell *)

(** What a path names on the notebook's disk: a regular file, or a
    directory with its entries in the order [tarfile] visits them. *)
Inductive node : Type :=
| File
| Dir (entries : list (string * node)).

(** [tar.add(name)] stores a regular file as one member and a directory
    as its own member followed by those of its entries. *)
Fixpoint members (name : string) (n : node) : list string :=
  match n with
  | File => [name]
  | Dir entries =>
      name ::
      (fix walk (es : list (string * node)) : list string :=
         match es with
         | [] => []
         | (child, n') :: es' =>
             members (name ++ "/" ++ child)%string n' ++ walk es'
         end) entries
  end.

(** Member names lose their leading slashes. *)
Fixpoint lstrip_slash (s : string) : string :=
  match s with
  | String "/"%char s' => lstrip_slash s'
  | _ => s
  end.

Record Host : Type := {
  (** what [tar.add] finds at a path of the notebook's working directory,
      or the exception it raises there (a missing path, an unreadable
      file) *)
  stat : string -> result node;
  (** [tarfile.open(name, mode)] *)
  tar_open : string -> string -> result unit;
  (** [tar.close()], called when the [with] block ends normally *)
  tar_close : result unit;
  (** [%%writefile name]: the cell's lines are written to the file *)
  write_file : string -> list string -> result unit;
  (** [!command]: IPython hands the command to a shell, which runs it
      in a child process; the exit status of the command *)
  system : list string -> nat
}.

Section Archive.

Variable H : Host.

(** [tar.add(name)]: the members of the archive afterwards. *)
Definition tar_add (tar : list string) (name : string) : M (list string) :=
  call (OpTarAdd name)
       (result_map (fun n => tar ++ members (lstrip_slash name) n)
                   (stat H name)).

(** [with tarfile.open("model.tar.gz", "w:gz") as tar: ...]: the members
    of [model.tar.gz] when the cell has run. *)
Definition archive_cell : M (list string) :=
  _ <- call (OpTarOpen "model.tar.gz" "w:gz") (tar_open H "model.tar.gz" "w:gz") ;;
  tar <- tar_add [] "code/serve.py" ;;
  tar <- tar_add tar "bert/data/qa.py" ;;
  tar <- tar_add tar "bert_qa_evaluate.py" ;;
  tar <- tar_add tar "bert_qa-7eb11865.params" ;;
  tar <- tar_add tar "vocab.json" ;;
  _ <- call OpTarClose (tar_close H) ;;
  ret tar.

End Archive.

(** ** The cells that build the container image *)

Section Docker.

Variable H : Host.

(** [%%writefile Dockerfile] *)
Definition dockerfile_cell : M unit :=
  call (OpWriteFile "Dockerfile")
       (write_file H "Dockerfile"
          [EmptyString;
           "ARG REGION";
           "FROM 763104351884.dkr.ecr.$REGION.amazonaws.com/mxnet-inference:1.6.0-gpu-py3";
           EmptyString;
           "RUN pip install --upgrade --user --pre 'mxnet-mkl' 'https://github.com/dmlc/gluon-nlp/tarball/v0.9.x'";
           "RUN pip list | grep mxnet"]).

(** [!command]: the cell waits for the command and goes on whatever its
    exit status is. *)
Definition shell (command : list string) : M nat :=
  call (OpSystem command) (Ok (system H command)).

(** [!$(aws ecr get-login ...)] *)
Definition login_cell : M nat :=
  shell ["$(aws ecr get-login --no-include-email --registry-ids 763104351884)"].

(** [!export REGION=$(wget ...) &&\], continued on a second line. *)
Definition build_cell : M nat :=
  shell
    ["export REGION=$(wget -qO- http://169.254.169.254/latest/meta-data/placement/availability-zone) &&\";
     " docker build --no-cache --build-arg REGION=${REGION::-1} -t my-docker:inference . -f Dockerfile"].

End Docker.

(** ** The endpoint cells *)

Record Cloud : Type := {
  (** objects of the SageMaker SDK *)
  Sdk : Type;
  get_execution_role : result Sdk;
  (** MXNetModel(model_data, image, role, py_version, entry_point,
      source_dir) *)
  MXNetModel :
    string -> string -> Sdk -> string -> string -> string -> result Sdk;
  (** sagemaker_model.deploy(initial_instance_count, instance_type) *)
  deploy : Sdk -> nat -> string -> result Sdk;
  (** predictor.predict(examples) *)
  predictor_predict : Sdk -> list (string * string) -> result Sdk;
  (** the loop that prints [output[k]] for each key *)
  print_output : Sdk -> result unit;
  delete_endpoint : Sdk -> result unit
}.

Section Endpoint.

Variable C : Cloud.

(** The two (question, context) pairs of the test cell. *)
Variable my_test_examples : list (string * string).

(** The cells from the construction of the model to the clean-up, run
    top to bottom; a cell that raises stops the run. *)
Definition endpoint_cells : M unit :=
  role <- call OpGetExecutionRole (get_execution_role C) ;;
  sagemaker_model <-
    call OpMXNetModel
         (MXNetModel C
            "file:///home/ec2-user/SageMaker/partner-ml-bootcamp/nlp/model.tar.gz"
            "my-docker:inference" role "py3" "serve.py" ".") ;;
  predictor <- call OpDeploy (deploy C sagemaker_model 1 "local") ;;
  output <- call OpPredictorPredict
                 (predictor_predict C predictor my_test_examples) ;;
  _ <- call OpPrintOutput (print_output C output) ;;
  call OpDeleteEndpoint (delete_endpoint C predictor).

End Endpoint.

(** ** Reading runs *)

(** [model_fn] loads the weights from [path]: once the network is built
    on the BERT model and the context is there, the loader is applied to
    that network, [path] and that context, this is the only load of the
    run, a failure of the loader is the failure of [model_fn], and the
    network of a returned handle is the one the loader gave back. *)
Definition loads_weights_from (R : Runtime) (params_path model_dir : string)
    (net0 vocab ctx : Obj R) (path : string) : Prop :=
  In (OpLoadParameters path, raised (load_parameters R net0 path ctx))
     (events (model_fn R params_path model_dir)) /\
  (forall p r,
      In (OpLoadParameters p, r) (events (model_fn R params_path model_dir))
      -> p = path /\ r = raised (load_parameters R net0 path ctx)) /\
  (forall e,
      load_parameters R net0 path ctx = Raise e ->
      outcome (model_fn R params_path model_dir) = Raise e) /\
  (forall model,
      outcome (model_fn R params_path model_dir) = Ok model ->
      exists net transform,
        load_parameters R net0 path ctx = Ok net /\
        model = PyTuple [PyObj net; PyObj vocab; PyObj transform]).

(** The run of [transform_fn] gets as far as its loop: the handle
    unpacks, the request decodes, and the five library calls on the way
    to [data_transform] return. *)
Definition reaches_loop (R : Runtime) (model : value R)
    (input_data : string) (vocab : value R)
    (all_results data_transform : Obj R) : Prop :=
  exists net squadTransform data tuples test_dataset ctx fn,
    unpack3 model = Ok (net, vocab, squadTransform) /\
    json_loads R input_data = Ok data /\
    _test_example_transform R data = Ok tuples /\
    SimpleDataset R tuples = Ok test_dataset /\
    cpu R = Ok ctx /\
    get_all_results R net vocab squadTransform test_dataset ctx
    = Ok all_results /\
    _transform R squadTransform = Ok fn /\
    dataset_transform R test_dataset fn = Ok data_transform.

(** The ways [transform_fn] fails before its loop: one of its first
    eight operations raises, those before it having returned. *)
Inductive fails_before_loop (R : Runtime) (model : value R)
    (input_data : string) : exn -> Prop :=
| fail_unpack e :
    unpack3 model = Raise e ->
    fails_before_loop R model input_data e
| fail_json_loads net vocab squadTransform e :
    unpack3 model = Ok (net, vocab, squadTransform) ->
    json_loads R input_data = Raise e ->
    fails_before_loop R model input_data e
| fail_test_example_transform net vocab squadTransform data e :
    unpack3 model = Ok (net, vocab, squadTransform) ->
    json_loads R input_data = Ok data ->
    _test_example_transform R data = Raise e ->
    fails_before_loop R model input_data e
| fail_SimpleDataset net vocab squadTransform data tuples e :
    unpack3 model = Ok (net, vocab, squadTransform) ->
    json_loads R input_data = Ok data ->
    _test_example_transform R data = Ok tuples ->
    SimpleDataset R tuples = Raise e ->
    fails_before_loop R model input_data e
| fail_cpu net vocab squadTransform data tuples test_dataset e :
    unpack3 model = Ok (net, vocab, squadTransform) ->
    json_loads R input_data = Ok data ->
    _test_example_transform R data = Ok tuples ->
    SimpleDataset R tuples = Ok test_dataset ->
    cpu R = Raise e ->
    fails_before_loop R model input_data e
| fail_get_all_results net vocab squadTransform data tuples test_dataset
    ctx e :
    unpack3 model = Ok (net, vocab, squadTransform) ->
    json_loads R input_data = Ok data ->
    _test_example_transform R data = Ok tuples ->
    SimpleDataset R tuples = Ok test_dataset ->
    cpu R = Ok ctx ->
    get_all_results R net vocab squadTransform test_dataset ctx = Raise e ->
    fails_before_loop R model input_data e
| fail_transform_attr net vocab squadTransform data tuples test_dataset
    ctx all_results e :
    unpack3 model = Ok (net, vocab, squadTransform) ->
    json_loads R input_data = Ok data ->
    _test_example_transform R data = Ok tuples ->
    SimpleDataset R tuples = Ok test_dataset ->
    cpu R = Ok ctx ->
    get_all_results R net vocab squadTransform test_dataset ctx
    = Ok all_results ->
    _transform R squadTransform = Raise e ->
    fails_before_loop R model input_data e
| fail_dataset_transform net vocab squadTransform data tuples test_dataset
    ctx all_results fn e :
    unpack3 model = Ok (net, vocab, squadTransform) ->
    json_loads R input_data = Ok data ->
    _test_example_transform R data = Ok tuples ->
    SimpleDataset R tuples = Ok test_dataset ->
    cpu R = Ok ctx ->
    get_all_results R net vocab squadTransform test_dataset ctx
    = Ok all_results ->
    _transform R squadTransform = Ok fn ->
    dataset_transform R test_dataset fn = Raise e ->
    fails_before_loop R model input_data e.

(** The ways one iteration of the loop fails, given the outcome of its
    item access: the access raises an exception that does not end the
    iteration, or an operation of the body raises, those before it having
    returned, or the n-best list is too short for [nbest[i]]. *)
Inductive iteration_fails (R : Runtime) (vocab : value R)
    (all_results : Obj R) : result (Obj R) -> exn -> Prop :=
| fail_access e :
    ends_iteration e = false ->
    iteration_fails R vocab all_results (Raise e) e
| fail_example_id features e :
    example_id R features = Raise e ->
    iteration_fails R vocab all_results (Ok features) e
| fail_results_lookup features f_id e :
    example_id R features = Ok f_id ->
    results_lookup R all_results f_id = Raise e ->
    iteration_fails R vocab all_results (Ok features) e
| fail_BERTBasicTokenizer features f_id results e :
    example_id R features = Ok f_id ->
    results_lookup R all_results f_id = Ok results ->
    BERTBasicTokenizer R vocab = Raise e ->
    iteration_fails R vocab all_results (Ok features) e
| fail_predict features f_id results tokenizer e :
    example_id R features = Ok f_id ->
    results_lookup R all_results f_id = Ok results ->
    BERTBasicTokenizer R vocab = Ok tokenizer ->
    predict R features results tokenizer = Raise e ->
    iteration_fails R vocab all_results (Ok features) e
| fail_index features f_id results tokenizer prediction nbest :
    example_id R features = Ok f_id ->
    results_lookup R all_results f_id = Ok results ->
    BERTBasicTokenizer R vocab = Ok tokenizer ->
    predict R features results tokenizer = Ok (prediction, nbest) ->
    length nbest < 3 ->
    iteration_fails R vocab all_results (Ok features) IndexError.

(** An item access whose iteration goes through: the access gives a
    feature, the four operations of the body return, and the n-best list
    has the three entries the inner loop reads. *)
Definition answered (R : Runtime) (vocab : value R) (all_results : Obj R)
    (access : result (Obj R)) : Prop :=
  exists features f_id results tokenizer prediction nbest,
    access = Ok features /\
    example_id R features = Ok f_id /\
    results_lookup R all_results f_id = Ok results /\
    BERTBasicTokenizer R vocab = Ok tokenizer /\
    predict R features results tokenizer = Ok (prediction, nbest) /\
    3 <= length nbest.

(** A list of three strings is stored for the id of a feature. *)
Definition stored_three (R : Runtime) (f_id : ExampleId R)
    (d : list (ExampleId R * list string)) : Prop :=
  exists k l, In (k, l) d /\ eid_eqb R k f_id = true /\ length l = 3.

(** ** Reading traces *)

(** The paths handed to [load_parameters] in a trace. *)
Definition loaded_paths (t : trace) : list string :=
  flat_map (fun ev => match fst ev with
                      | OpLoadParameters path => [path]
                      | _ => []
                      end) t.

(** An operation that starts a process. *)
Definition starts_process (o : op) : bool :=
  match o with
  | OpSystem _ => true
  | _ => false
  end.

(** The operations of a trace that start a process. *)
Definition processes (t : trace) : list op :=
  filter starts_process (map fst t).

(** The files the archiving cell lists, in its order. *)
Definition listed_files : list string :=
  ["code/serve.py"; "bert/data/qa.py"; "bert_qa_evaluate.py";
   "bert_qa-7eb11865.params"; "vocab.json"].

(** The names handed to [tar.add] in a trace. *)
Definition added_names (t : trace) : list string :=
  flat_map (fun ev => match fst ev with
                      | OpTarAdd name => [name]
                      | _ => []
                      end) t.

(** The endpoint operations of a trace, in order. *)
Definition endpoint_ops (t : trace) : list op :=
  flat_map (fun ev => match fst ev with
                      | OpDeploy => [OpDeploy]
                      | OpPredictorPredict => [OpPredictorPredict]
                      | OpDeleteEndpoint => [OpDeleteEndpoint]
                      | _ => []
                      end) t.

(** Operations are compared by name and argument. *)
Definition op_eq_dec (a b : op) : {a = b} + {a <> b}.
Proof.
  decide equality;
    try apply (list_eq_dec string_dec); auto using string_dec, Nat.eq_dec.
Defined.

(** How many times an operation occurs in a trace. *)
Definition calls (o : op) (t : trace) : nat :=
  count_occ op_eq_dec (map fst t) o.

(** The operations of one iteration of the loop over the features, when
    none of them raises: the iterator's step, the id, the lookup, the
    tokenizer, [predict], and two index accesses for each of the three
    strings. *)
Definition iteration_events : trace :=
  [(OpNext, None); (OpExampleId, None); (OpResultsLookup, None);
   (OpBERTBasicTokenizer, None); (OpPredict, None);
   (OpIndex 0, None); (OpIndex 0, None); (OpIndex 1, None);
   (OpIndex 1, None); (OpIndex 2, None); (OpIndex 2, None)].

(** The operations of [transform_fn] before the loop, when none of them
    raises. *)
Definition preamble_events (input_data : string) : trace :=
  [(OpUnpackModel, None); (OpJsonLoads input_data, None);
   (OpTestExampleTransform, None); (OpSimpleDataset, None); (OpCpu, None);
   (OpGetAllResults, None); (OpTransformAttr, None);
   (OpDatasetTransform, None)].

(** No two entries of a dictionary have equal keys. *)
Definition distinct_keys (R : Runtime)
    (d : list (ExampleId R * list string)) : Prop :=
  ForallOrdPairs (fun a b => eid_eqb R (fst a) (fst b) = false) d.

(** Whether a dictionary has an entry under a key. *)
Definition has_key (R : Runtime) (f_id : ExampleId R)
    (d : list (ExampleId R * list string)) : bool :=
  existsb (fun kv => eid_eqb R (fst kv) f_id) d.

(** The keys of a dictionary after an assignment under [f_id]: a key
    that is there stays where it is, a new one goes last. *)
Definition add_key (R : Runtime) (keys : list (ExampleId R))
    (f_id : ExampleId R) : list (ExampleId R) :=
  if existsb (fun k => eid_eqb R k f_id) keys then keys else keys ++ [f_id].

(** Every entry of the dictionary is attributed to a feature of its own
    id: the list stored under [k] is made of the first three entries of
    the n-best list [predict] returned for a feature whose id is [k] (or
    equal to it), from the results looked up under that id. *)
Definition attributed (R : Runtime) (all_results : Obj R)
    (d : list (ExampleId R * list string)) : Prop :=
  forall (k : ExampleId R) (l : list string),
    In (k, l) d ->
    exists features f_id results tokenizer prediction nbest,
      example_id R features = Ok f_id /\
      (k = f_id \/ eid_eqb R k f_id = true) /\
      results_lookup R all_results f_id = Ok results /\
      predict R features results tokenizer = Ok (prediction, nbest) /\
      l = map (entry_string R) (firstn 3 nbest).

(** The [tar.add] lines of the archiving cell, as one pass over the
    names. *)
Fixpoint tar_add_all (H : Host) (tar : list string) (names : list string)
  : M (list string) :=
  match names with
  | [] => ret tar
  | name :: names' =>
      bind (tar_add H tar name) (fun tar' => tar_add_all H tar' names')
  end.

(** * A concrete runtime

    A small instance of [Runtime], [Host] and [Cloud] on which the
    callbacks and cells run by evaluation.  Numbers are binary64 floats
    with Python's [x * 100] and ['%.2f' % x]; the network is a table
    holding the two answers the notebook prints; the JSON decoder reads
    the requests the notebook sends (an array of [question, context]
    arrays of plain strings) and the encoder writes ASCII text. *)

Module PyFloat.

Definition digits (n : Z) : string :=
  NilZero.string_of_uint (N.to_uint (Z.to_N n)).

Definition two_digits (n : Z) : string :=
  if (n <? 10)%Z then ("0" ++ digits n)%string else digits n.

(** [num / den] rounded to the nearest integer, ties to even. *)
Definition round_div (num den : Z) : Z :=
  let q := (num / den)%Z in
  match (2 * (num mod den) ?= den)%Z with
  | Lt => q
  | Gt => (q + 1)%Z
  | Eq => if Z.even q then q else (q + 1)%Z
  end.

Definition fixed2 (negative : bool) (hundredths : Z) : string :=
  ((if negative then "-" else "") ++ digits (hundredths / 100) ++ "."
   ++ two_digits (hundredths mod 100))%string.

(** ['%.2f' % x]: the exact value of [x], rounded to two decimals. *)
Definition fmt_2f (x : float) : string :=
  match Prim2SF x with
  | S754_nan => "nan"
  | S754_infinity s => if s then "-inf" else "inf"
  | S754_zero s => fixed2 s 0
  | S754_finite s m e =>
      fixed2 s
        match e with
        | Zneg p => round_div (Zpos m * 100) (Z.pow_pos 2 p)
        | _ => (Zpos m * 100 * 2 ^ e)%Z
        end
  end.

(** [x * 100] *)
Definition times100 (x : float) : float := (x * 100)%float.

End PyFloat.

Module Demo.

Inductive obj : Type :=
| Net (weights : option string)
| BertModel
| Vocab
| Tokenizer
| BasicTokenizer
| Transform
| TransformMethod
| Ctx
| Examples (pairs : list (string * string))
| Tuples (rows : list (nat * string * string))
| Dataset (rows : list (nat * string * string))
| AllResults (ids : list nat)
| Lazy (rows : list (nat * string * string))
| Row (id : nat) (question context : string)
| Features (id : nat) (question context : string)
| Results (id : nat)
| Prediction (text : string).

(** *** json *)

Definition dquote : ascii := ascii_of_nat 34.
Definition backslash : ascii := ascii_of_nat 92.

Inductive jstate : Type :=
| JStart
| JOuter (acc : list (string * string)) (fresh : bool)
| JPair (acc : list (string * string))
| JQuestion (acc : list (string * string)) (q : string)
| JComma (acc : list (string * string)) (q : string)
| JOpen (acc : list (string * string)) (q : string)
| JContext (acc : list (string * string)) (q c : string)
| JClose (acc : list (string * string)) (q c : string)
| JNext (acc : list (string * string))
| JDone (acc : list (string * string))
| JFail.

Definition is_space (ch : ascii) : bool :=
  (nat_of_ascii ch =? 32) || (nat_of_ascii ch =? 9)
  || (nat_of_ascii ch =? 10) || (nat_of_ascii ch =? 13).

Definition snoc (s : string) (ch : ascii) : string :=
  (s ++ String ch EmptyString)%string.

Definition in_string (ch : ascii) (more : string -> jstate)
    (close : jstate) (s : string) : jstate :=
  if Ascii.eqb ch dquote then close
  else if Ascii.eqb ch backslash then JFail
  else if (nat_of_ascii ch <? 32) || (127 <? nat_of_ascii ch) then JFail
  else more (snoc s ch).

Definition jstep (st : jstate) (ch : ascii) : jstate :=
  match st with
  | JQuestion acc q => in_string ch (JQuestion acc) (JComma acc q) q
  | JContext acc q c => in_string ch (JContext acc q) (JClose acc q c) c
  | JFail => JFail
  | _ =>
      if is_space ch then st
      else
        match st with
        | JStart => if Ascii.eqb ch "[" then JOuter [] true else JFail
        | JOuter acc fresh =>
            if Ascii.eqb ch "[" then JPair acc
            else if fresh && Ascii.eqb ch "]" then JDone acc
            else JFail
        | JPair acc =>
            if Ascii.eqb ch dquote then JQuestion acc EmptyString else JFail
        | JComma acc q =>
            if Ascii.eqb ch "," then JOpen acc q else JFail
        | JOpen acc q =>
            if Ascii.eqb ch dquote then JContext acc q EmptyString else JFail
        | JClose acc q c =>
            if Ascii.eqb ch "]" then JNext (acc ++ [(q, c)]) else JFail
        | JNext acc =>
            if Ascii.eqb ch "," then JOuter acc false
            else if Ascii.eqb ch "]" then JDone acc
            else JFail
        | _ => JFail
        end
  end.

Fixpoint jrun (st : jstate) (s : string) : jstate :=
  match s with
  | EmptyString => st
  | String ch s' => jrun (jstep st ch) s'
  end.

Definition json_loads (s : string) : result obj :=
  match jrun JStart s with
  | JDone acc => Ok (Examples acc)
  | _ => Raise (LibraryError "JSONDecodeError")
  end.

Definition hex_digit (n : nat) : ascii :=
  ascii_of_nat (if n <? 10 then 48 + n else 87 + n).

Definition escape_char (ch : ascii) : string :=
  let n := nat_of_ascii ch in
  let esc (c : ascii) := String backslash (String c EmptyString) in
  if n =? 34 then esc dquote
  else if n =? 92 then esc backslash
  else if n =? 10 then esc "n"%char
  else if n =? 13 then esc "r"%char
  else if n =? 9 then esc "t"%char
  else if n =? 8 then esc "b"%char
  else if n =? 12 then esc "f"%char
  else if (n <? 32) || (126 <? n) then
    String backslash
      (String "u" (String "0" (String "0"
         (String (hex_digit (n / 16)) (String (hex_digit (n mod 16)) EmptyString)))))
  else String ch EmptyString.

Fixpoint escape (s : string) : string :=
  match s with
  | EmptyString => EmptyString
  | String ch s' => (escape_char ch ++ escape s')%string
  end.

Definition quoted (s : string) : string :=
  (String dquote (escape s) ++ String dquote EmptyString)%string.

Fixpoint join (sep : string) (l : list string) : string :=
  match l with
  | [] => EmptyString
  | [x] => x
  | x :: l' => (x ++ sep ++ join sep l')%string
  end.

Fixpoint ascii_only (s : string) : bool :=
  match s with
  | EmptyString => true
  | String ch s' => (nat_of_ascii ch <? 128) && ascii_only s'
  end.

(** [json.dumps] of a dictionary from integers to lists of strings. *)
Definition json_dumps (d : list (nat * list string)) : result string :=
  if forallb (fun kv => forallb ascii_only (snd kv)) d then
    Ok ("{" ++ join ", "
                 (map (fun kv =>
                         quoted (PyFloat.digits (Z.of_nat (fst kv))) ++ ": ["
                         ++ join ", " (map quoted (snd kv)) ++ "]")
                      d)
            ++ "}")%string
  else Raise (LibraryError "UnicodeDecodeError").

(** *** the model *)

Definition weights_on_disk (path : string) : bool :=
  String.eqb path "bert_qa-7eb11865.params"
  || String.eqb path "/opt/ml/model/bert_qa-7eb11865.params".

Definition load_parameters (net : obj) (path : string) (ctx : obj)
  : result obj :=
  match net with
  | Net _ =>
      if weights_on_disk path then Ok (Net (Some path))
      else Raise FileNotFoundError
  | _ => Raise (LibraryError "AttributeError")
  end.

Fixpoint number (i : nat) (pairs : list (string * string))
  : list (nat * string * string) :=
  match pairs with
  | [] => []
  | (q, c) :: pairs' => (i, q, c) :: number (S i) pairs'
  end.

Definition test_example_transform (data : obj) : result obj :=
  match data with
  | Examples pairs => Ok (Tuples (number 0 pairs))
  | _ => Raise TypeError
  end.

Definition SimpleDataset (rows : obj) : result obj :=
  match rows with
  | Tuples l => Ok (Dataset l)
  | _ => Raise TypeError
  end.

Definition is_net (v : pyobj obj) : bool :=
  match v with
  | PyObj (Net (Some _)) => true
  | _ => false
  end.

Definition get_all_results (net vocab transform : pyobj obj)
    (dataset ctx : obj) : result obj :=
  match dataset with
  | Dataset rows =>
      if is_net net then Ok (AllResults (map (fun r => fst (fst r)) rows))
      else Raise (LibraryError "MXNetError")
  | _ => Raise TypeError
  end.

Definition transform_attr (t : pyobj obj) : result obj :=
  match t with
  | PyObj Transform => Ok TransformMethod
  | _ => Raise (LibraryError "AttributeError")
  end.

Definition dataset_transform (dataset fn : obj) : result obj :=
  match dataset with
  | Dataset rows => Ok (Lazy rows)
  | _ => Raise (LibraryError "AttributeError")
  end.

(** The lazy transform of this runtime raises IndexError on an example
    with an empty context. *)
Definition getitems (d : obj) : list (result obj) :=
  match d with
  | Lazy rows =>
      map (fun r =>
             if String.eqb (snd r) EmptyString then Raise IndexError
             else Ok (Features (fst (fst r)) (snd (fst r)) (snd r)))
          rows
  | _ => [Raise TypeError]
  end.

Definition rows_of (rows : list (nat * string * string))
  : list (pyobj obj) :=
  map (fun r => PyObj (Row (fst (fst r)) (snd (fst r)) (snd r))) rows.

Definition unpack_items (o : obj) : result (list (pyobj obj)) :=
  match o with
  | Examples pairs =>
      Ok (map (fun qc => PyList [PyStr (fst qc); PyStr (snd qc)]) pairs)
  | Tuples rows => Ok (rows_of rows)
  | Dataset rows => Ok (rows_of rows)
  | _ => Raise TypeError
  end.

Definition example_id (features : obj) : result nat :=
  match features with
  | Features id _ _ => Ok id
  | _ => Raise (LibraryError "AttributeError")
  end.

Definition results_lookup (all_results : obj) (id : nat) : result obj :=
  match all_results with
  | AllResults _ => Ok (Results id)
  | _ => Raise TypeError
  end.

(** The two answers of the notebook; any further example has an n-best
    list with a single entry. *)
Definition nbest_table (id : nat) : list (string * float) :=
  match id with
  | 0 =>
      [("Denver Broncos", 0x1.fcb923a29c77ap-1%float);
       ("The American Football Conference (AFC) champion Denver Broncos",
        0x1.2d77318fc5048p-9%float);
       ("Broncos", 0x1.0624dd2f1a9fcp-9%float)]
  | 1 =>
      [("Levi's Stadium in the San Francisco Bay Area at Santa Clara, California",
        0x1.08ce703afb7e9p-2%float);
       ("Levi's Stadium", 0x1.d94af4f0d844dp-3%float);
       ("San Francisco Bay Area at Santa Clara, California",
        0x1.6e2eb1c432ca5p-3%float);
       ("Santa Clara, California", 0x1p-4%float)]
  | _ => [(EmptyString, 0x1p+0%float)]
  end.

Definition predict (features results tokenizer : obj)
  : result (obj * list (string * float)) :=
  match features with
  | Features id _ _ =>
      let nbest := nbest_table id in
      Ok (Prediction (fst (hd (EmptyString, 0%float) nbest)), nbest)
  | _ => Raise TypeError
  end.

Definition runtime : Runtime :=
  Build_Runtime
    obj
    nat
    Nat.eqb
    unpack_items
    float
    PyFloat.times100
    PyFloat.fmt_2f
    json_loads
    json_dumps
    (Ok Ctx)
    (Ok (BertModel, Vocab))
    (fun bert_model => Ok (Net None))
    load_parameters
    (fun vocab => Ok Tokenizer)
    (fun tokenizer => Ok Transform)
    test_example_transform
    SimpleDataset
    get_all_results
    transform_attr
    dataset_transform
    getitems
    example_id
    results_lookup
    (fun vocab => Ok BasicTokenizer)
    predict.

(** *** the disk and the SDK *)

Definition on_disk : list string :=
  ["code/serve.py"; "bert/data/qa.py"; "bert_qa_evaluate.py";
   "bert_qa-7eb11865.params"; "vocab.json"; "Dockerfile"].

Definition host : Host := {|
  stat := fun name =>
    if existsb (String.eqb name) on_disk then Ok File
    else if String.eqb name "bert" then
      Ok (Dir [("data", Dir [("qa.py", File)])])
    else Raise FileNotFoundError;
  tar_open := fun name mode => Ok tt;
  tar_close := Ok tt;
  write_file := fun name lines => Ok tt;
  system := fun command => 0
|}.

Inductive sdk : Type :=
| Role
| Model
| Predictor
| Output.

Definition cloud : Cloud := {|
  Sdk := sdk;
  get_execution_role := Ok Role;
  MXNetModel := fun model_data image role py_version entry_point source_dir =>
    Ok Model;
  deploy := fun model count instance_type => Ok Predictor;
  predictor_predict := fun predictor examples => Ok Output;
  print_output := fun output => Ok tt;
  delete_endpoint := fun predictor => Ok tt
|}.

(** The request of the test cell, with shortened contexts:
    [[["Which NFL team ...?", "... Denver Broncos ..."], ["Where did
    ...?", "... Levi's Stadium ..."]]]. *)
Definition request : string :=
  let q := String dquote EmptyString in
  ("[[" ++ q ++ "Which NFL team represented the AFC at Super Bowl 50?" ++ q
   ++ ", " ++ q ++ "The AFC champion Denver Broncos defeated the NFC champion Carolina Panthers." ++ q
   ++ "], [" ++ q ++ "Where did Super Bowl 50 take place?" ++ q
   ++ ", " ++ q ++ "The game was played at Levi's Stadium in the San Francisco Bay Area at Santa Clara, California." ++ q
   ++ "]]")%string.

(** The handle [model_fn] returns for the weights in the working
    directory. *)
Definition model : value runtime :=
  PyTuple [PyObj (Net (Some "bert_qa-7eb11865.params"));
           PyObj Vocab; PyObj Transform].

(** What the notebook prints for the two examples. *)
Definition predictions : list (nat * list string) :=
  [(0, ["99.36% " ++ tab ++ " Denver Broncos";
        "0.23% " ++ tab
        ++ " The American Football Conference (AFC) champion Denver Broncos";
        "0.20% " ++ tab ++ " Broncos"]%string);
   (1, ["25.86% " ++ tab
        ++ " Levi's Stadium in the San Francisco Bay Area at Santa Clara, California";
        "23.11% " ++ tab ++ " Levi's Stadium";
        "17.88% " ++ tab
        ++ " San Francisco Bay Area at Santa Clara, California"]%string)].

(** The same dictionary as JSON text. *)
Definition response : string :=
  let q := String dquote EmptyString in
  ("{" ++ q ++ "0" ++ q ++ ": ["
   ++ q ++ "99.36% \t Denver Broncos" ++ q ++ ", "
   ++ q ++ "0.23% \t The American Football Conference (AFC) champion Denver Broncos" ++ q ++ ", "
   ++ q ++ "0.20% \t Broncos" ++ q ++ "], "
   ++ q ++ "1" ++ q ++ ": ["
   ++ q ++ "25.86% \t Levi's Stadium in the San Francisco Bay Area at Santa Clara, California" ++ q ++ ", "
   ++ q ++ "23.11% \t Levi's Stadium" ++ q ++ ", "
   ++ q ++ "17.88% \t San Francisco Bay Area at Santa Clara, California" ++ q
   ++ "]}")%string.

(** A request with a third example, for which the table holds a single
    candidate. *)
Definition request3 : string :=
  let q := String dquote EmptyString in
  ("[[" ++ q ++ "Who won?" ++ q ++ ", " ++ q ++ "Denver won." ++ q
   ++ "], [" ++ q ++ "Where?" ++ q ++ ", " ++ q ++ "At Levi's Stadium." ++ q
   ++ "], [" ++ q ++ "When?" ++ q ++ ", " ++ q ++ "In 2016." ++ q
   ++ "]]")%string.

(** The rows of the dataset built from it. *)
Definition rows3 : list (nat * string * string) :=
  [(0, "Who won?", "Denver won."); (1, "Where?", "At Levi's Stadium.");
   (2, "When?", "In 2016.")].

(** A request whose second example has an empty context. *)
Definition request_gap : string :=
  let q := String dquote EmptyString in
  ("[[" ++ q ++ "Who won?" ++ q ++ ", " ++ q ++ "Denver won." ++ q
   ++ "], [" ++ q ++ "Where?" ++ q ++ ", " ++ q ++ q
   ++ "], [" ++ q ++ "When?" ++ q ++ ", " ++ q ++ "In 2016." ++ q
   ++ "]]")%string.

(** The rows of the dataset built from it. *)
Definition rows_gap : list (nat * string * string) :=
  [(0, "Who won?", "Denver won."); (1, "Where?", EmptyString);
   (2, "When?", "In 2016.")].

(** The answer to its first example alone, as JSON text. *)
Definition response_first : string :=
  let q := String dquote EmptyString in
  ("{" ++ q ++ "0" ++ q ++ ": ["
   ++ q ++ "99.36% \t Denver Broncos" ++ q ++ ", "
   ++ q ++ "0.23% \t The American Football Conference (AFC) champion Denver Broncos" ++ q ++ ", "
   ++ q ++ "0.20% \t Broncos" ++ q ++ "]}")%string.

(** A disk on which [vocab.json] is missing. *)
Definition host_without_vocab : Host := {|
  stat := fun name =>
    if String.eqb name "vocab.json" then Raise FileNotFoundError
    else stat host name;
  tar_open := tar_open host;
  tar_close := tar_close host;
  write_file := write_file host;
  system := system host
|}.

(** A disk on which [vocab.json] is a directory with one file. *)
Definition host_vocab_directory : Host := {|
  stat := fun name =>
    if String.eqb name "vocab.json" then Ok (Dir [("tokens.txt", File)])
    else stat host name;
  tar_open := tar_open host;
  tar_close := tar_close host;
  write_file := write_file host;
  system := system host
|}.

End Demo.

(** * Properties *)

(** ** The monad *)

Lemma outcome_bind (A B : Type) (m : M A) (f : A -> M B) :
  outcome (bind m f) =
  match outcome m with
  | Ok a => outcome (f a)
  | Raise e => Raise e
  end.
Proof.
  unfold outcome, bind. destruct m as [t [a | e]]; simpl.
  - now destruct (f a).
  - reflexivity.
Qed.

Lemma events_bind (A B : Type) (m : M A) (f : A -> M B) :
  events (bind m f) =
  events m ++ match outcome m with
              | Ok a => events (f a)
              | Raise _ => []
              end.
Proof.
  unfold events, outcome, bind. destruct m as [t [a | e]]; simpl.
  - now destruct (f a).
  - now rewrite app_nil_r.
Qed.

Lemma outcome_call (A : Type) (o : op) (r : result A) :
  outcome (call o r) = r.
Proof. reflexivity. Qed.

Lemma events_call (A : Type) (o : op) (r : result A) :
  events (call o r) = [(o, raised r)].
Proof. reflexivity. Qed.

Lemma outcome_ret (A : Type) (a : A) : outcome (ret a) = Ok a.
Proof. reflexivity. Qed.

Lemma events_ret (A : Type) (a : A) : events (ret a) = [].
Proof. reflexivity. Qed.

Lemma bind_ok_inv (A B : Type) (m : M A) (f : A -> M B) (b : B) :
  outcome (bind m f) = Ok b ->
  exists a, outcome m = Ok a /\ outcome (f a) = Ok b.
Proof.
  rewrite outcome_bind. destruct (outcome m) as [a | e]; intro E.
  - exists a. split; [reflexivity | exact E].
  - discriminate E.
Qed.

(** Inversion of a block that returned, one binding at a time. *)
Tactic Notation "bind_inv" hyp(H) "as" simple_intropattern(a) ident(E) :=
  apply bind_ok_inv in H; destruct H as (a & E & H);
  rewrite ?outcome_call in E.

(** *** Running a straight-line block call by call *)

Lemma events_bind_call_ok (A B : Type) (o : op) (a : A) (f : A -> M B) :
  events (bind (call o (Ok a)) f) = (o, None) :: events (f a).
Proof. now rewrite events_bind, events_call, outcome_call. Qed.

Lemma events_bind_call_raise (A B : Type) (o : op) (e : exn)
    (f : A -> M B) :
  events (bind (call o (Raise e)) f) = [(o, Some e)].
Proof. now rewrite events_bind, events_call, outcome_call. Qed.

Lemma outcome_bind_call_ok (A B : Type) (o : op) (a : A) (f : A -> M B) :
  outcome (bind (call o (Ok a)) f) = outcome (f a).
Proof. now rewrite outcome_bind, outcome_call. Qed.

Lemma outcome_bind_call_raise (A B : Type) (o : op) (e : exn)
    (f : A -> M B) :
  outcome (bind (call o (Raise e)) f) = Raise e.
Proof. now rewrite outcome_bind, outcome_call. Qed.

(** Case analysis on the outcome of the next call of the block. *)
Ltac step :=
  match goal with
  | |- context [bind (call _ ?r) _] =>
      let E := fresh "E" in
      destruct r as [? | ?] eqn:E;
      rewrite ?events_bind_call_ok, ?events_bind_call_raise,
        ?outcome_bind_call_ok, ?outcome_bind_call_raise;
      cbn beta iota zeta
  end.

(** ** The loops of [transform_fn] *)

Section Loops.

Variable R : Runtime.

Lemma nbest_loop_three (nbest : list (string * Prob R)) :
  3 <= length nbest ->
  nbest_loop R nbest (seq 0 3) [] =
  ([(OpIndex 0, None); (OpIndex 0, None); (OpIndex 1, None);
    (OpIndex 1, None); (OpIndex 2, None); (OpIndex 2, None)],
   Ok (map (entry_string R) (firstn 3 nbest))).
Proof.
  destruct nbest as [| a [| b [| c rest]]]; simpl; intro L; try lia.
  reflexivity.
Qed.

Lemma nbest_loop_short (nbest : list (string * Prob R)) :
  length nbest < 3 ->
  outcome (nbest_loop R nbest (seq 0 3) []) = Raise IndexError.
Proof.
  destruct nbest as [| a [| b [| c rest]]]; simpl; intro L;
    try reflexivity; lia.
Qed.

Lemma nbest_loop_ok_inv (nbest : list (string * Prob R)) (l : list string) :
  outcome (nbest_loop R nbest (seq 0 3) []) = Ok l ->
  3 <= length nbest /\ l = map (entry_string R) (firstn 3 nbest).
Proof.
  intro E. destruct (Nat.lt_ge_cases (length nbest) 3) as [L | L].
  - rewrite (nbest_loop_short _ L) in E. discriminate E.
  - rewrite (nbest_loop_three _ L) in E. injection E as <-. now split.
Qed.

Lemma dict_set_in (f_id : ExampleId R) (v : list string)
    (d : list (ExampleId R * list string)) (k : ExampleId R)
    (l : list string) :
  In (k, l) (dict_set R f_id v d) -> l = v \/ In (k, l) d.
Proof.
  induction d as [| [k' w] d IH]; simpl.
  - intros [E | []]. left. congruence.
  - destruct (eid_eqb R k' f_id); simpl.
    + intros [E | I]; [left; congruence | right; now right].
    + intros [E | I]; [right; now left |].
      destruct (IH I) as [-> | I']; [now left | right; now right].
Qed.

Lemma features_loop_stored (vocab : value R) (all_results : Obj R)
    (steps : list (result (Obj R)))
    (acc d : list (ExampleId R * list string)) :
  stored_from_nbest R acc ->
  outcome (features_loop R vocab all_results steps acc) = Ok d ->
  stored_from_nbest R d.
Proof.
  revert acc. induction steps as [| step steps IH]; intros acc Hacc E.
  - simpl in E. injection E as <-. exact Hacc.
  - simpl in E.
    bind_inv E as features Enext.
    bind_inv E as f_id Eid.
    bind_inv E as results Eres.
    bind_inv E as tokenizer Etok.
    bind_inv E as [prediction nbest] Epredict.
    bind_inv E as nbest_prediction Enbest.
    apply nbest_loop_ok_inv in Enbest. destruct Enbest as [L ->].
    refine (IH _ _ E). clear IH E.
    intros k l I. apply dict_set_in in I. destruct I as [-> | I].
    + now exists features, results, tokenizer, prediction, nbest.
    + exact (Hacc k l I).
Qed.

Lemma transform_fn_predictions_stored (model : value R)
    (input_data : string) (d : list (ExampleId R * list string)) :
  outcome (transform_fn_predictions R model input_data) = Ok d ->
  stored_from_nbest R d.
Proof.
  unfold transform_fn_predictions. intro E.
  bind_inv E as [[net vocab] squadTransform] Eunpack.
  bind_inv E as data Eloads.
  bind_inv E as tuples Etuples.
  bind_inv E as test_dataset Edataset.
  bind_inv E as ctx Ectx.
  bind_inv E as all_results Eresults.
  bind_inv E as fn Efn.
  bind_inv E as data_transform Etransform.
  refine (features_loop_stored _ _ _ [] _ _ E).
  intros k l [].
Qed.

End Loops.

(** ** The callbacks *)

(** C1. Whenever [transform_fn] returns, [input_data] was parsed by the
    JSON decoder, which accepted it, and the first component of the
    result is what the JSON encoder made of the dictionary from example
    ids to lists of prediction strings built by the loop. *)
Theorem transform_fn_json_in_json_out (R : Runtime) (model : value R)
    (input_data : string) (input_content_type output_content_type : value R)
    (response_body : string) (content_type : value R) :
  outcome (transform_fn R model input_data
             input_content_type output_content_type)
  = Ok (response_body, content_type) ->
  (exists data, json_loads R input_data = Ok data) /\
  In (OpJsonLoads input_data, None)
     (events (transform_fn R model input_data
                input_content_type output_content_type)) /\
  exists all_predictions : list (ExampleId R * list string),
    outcome (transform_fn_predictions R model input_data)
    = Ok all_predictions /\
    json_dumps R all_predictions = Ok response_body.
Proof.
  intro E. unfold transform_fn in E |- *.
  bind_inv E as all_predictions Epred.
  bind_inv E as body Edumps.
  rewrite outcome_ret in E. injection E as -> _.
  assert (Epred' := Epred). unfold transform_fn_predictions in Epred'.
  bind_inv Epred' as [[net vocab] squadTransform] Eunpack.
  bind_inv Epred' as data Eloads.
  split; [now exists data |]. split.
  - rewrite events_bind. apply in_or_app. left.
    unfold transform_fn_predictions.
    rewrite events_bind, events_call, outcome_call, Eunpack.
    apply in_or_app. right.
    rewrite events_bind, events_call, Eloads. now left.
  - now exists all_predictions.
Qed.

(** C4. Every value [model_fn] returns is a tuple of exactly three
    library objects (net, vocab, transform); unpacking it into three names,
    as the first line of [transform_fn] does, succeeds and binds them in
    that order, so the first operation of [transform_fn] on such a handle
    does not raise. *)
Theorem model_fn_handle_fits_transform_fn (R : Runtime)
    (params_path model_dir : string) (model : value R) :
  outcome (model_fn R params_path model_dir) = Ok model ->
  exists net vocab transform : Obj R,
    model = PyTuple [PyObj net; PyObj vocab; PyObj transform] /\
    unpack3 model = Ok (PyObj net, PyObj vocab, PyObj transform) /\
    forall (input_data : string) (ict oct : value R),
      hd_error (events (transform_fn R model input_data ict oct))
      = Some (OpUnpackModel, None).
Proof.
  intro E. unfold model_fn in E.
  bind_inv E as [bert_model vocab] Eget.
  bind_inv E as net0 Enet.
  cbv zeta in E.
  bind_inv E as ctx Ectx.
  bind_inv E as net Eload.
  bind_inv E as tokenizer Etok.
  bind_inv E as transform Etransform.
  rewrite outcome_ret in E. injection E as <-.
  exists net, vocab, transform. repeat split.
  intros input_data ict oct.
  unfold transform_fn, transform_fn_predictions.
  rewrite !events_bind, events_call. reflexivity.
Qed.

(** C7. The trace and the response body of [transform_fn] are the same
    whatever the two content types are, and the second component of a
    result is the [output_content_type] argument itself. *)
Theorem transform_fn_ignores_content_types (R : Runtime) (model : value R)
    (input_data : string) (ict1 oct1 ict2 oct2 : value R) :
  events (transform_fn R model input_data ict1 oct1)
  = events (transform_fn R model input_data ict2 oct2) /\
  result_map fst (outcome (transform_fn R model input_data ict1 oct1))
  = result_map fst (outcome (transform_fn R model input_data ict2 oct2)) /\
  result_map snd (outcome (transform_fn R model input_data ict1 oct1))
  = result_map (fun _ => oct1)
      (outcome (transform_fn R model input_data ict1 oct1)).
Proof.
  unfold transform_fn. rewrite !events_bind, !outcome_bind.
  destruct (outcome (transform_fn_predictions R model input_data))
    as [all_predictions | e]; [| repeat split].
  rewrite !events_bind, !outcome_bind, !outcome_call.
  destruct (json_dumps R all_predictions) as [body | e]; repeat split.
Qed.

(** C5. Every prediction string of a response is the fixed format
    applied to [p * 100] and [text], for an entry [(text, p)] of an n-best
    list that [predict] returned: the callback scores nothing itself. *)
Theorem transform_fn_formats_nbest_entries (R : Runtime) (model : value R)
    (input_data : string) (ict oct : value R)
    (response_body : string) (content_type : value R) :
  outcome (transform_fn R model input_data ict oct)
  = Ok (response_body, content_type) ->
  exists all_predictions : list (ExampleId R * list string),
    outcome (transform_fn_predictions R model input_data)
    = Ok all_predictions /\
    json_dumps R all_predictions = Ok response_body /\
    forall (f_id : ExampleId R) (l : list string) (s : string),
      In (f_id, l) all_predictions -> In s l ->
      exists features results tokenizer prediction nbest text p,
        predict R features results tokenizer = Ok (prediction, nbest) /\
        In (text, p) nbest /\
        s = (fmt_2f R (times100 R p) ++ "% " ++ tab ++ " " ++ text)%string.
Proof.
  intro E. unfold transform_fn in E.
  bind_inv E as all_predictions Epred.
  bind_inv E as body Edumps.
  rewrite outcome_ret in E. injection E as -> _.
  exists all_predictions. repeat split; try assumption.
  intros f_id l s I Is.
  destruct (transform_fn_predictions_stored _ _ _ _ Epred _ _ I)
    as (features & results & tokenizer & prediction & nbest & P & _ & ->).
  apply in_map_iff in Is. destruct Is as ([text p] & <- & Ie).
  exists features, results, tokenizer, prediction, nbest, text, p.
  repeat split; try assumption.
  clear - Ie. revert Ie. generalize 3. induction nbest as [| x nbest IH].
  - intros n I. now rewrite firstn_nil in I.
  - intros [| n]; simpl; [intros [] |].
    intros [E | I]; [now left | right; now apply (IH n)].
Qed.

(** ** The cells *)

(** C3. When the archive can be opened and closed and the five listed
    paths are regular files, the cell runs without raising, [tar.add] is
    called on the five names in the listed order and on nothing else, and
    the members of [model.tar.gz] are exactly those five names in that
    order. *)
Theorem archive_cell_members (H : Host) :
  tar_open H "model.tar.gz" "w:gz" = Ok tt ->
  tar_close H = Ok tt ->
  (forall f, In f listed_files -> stat H f = Ok File) ->
  outcome (archive_cell H) = Ok listed_files /\
  added_names (events (archive_cell H)) = listed_files /\
  quiet (events (archive_cell H)).
Proof.
  intros O K F. unfold archive_cell, tar_add.
  rewrite O, K.
  rewrite (F "code/serve.py"), (F "bert/data/qa.py"),
    (F "bert_qa_evaluate.py"), (F "bert_qa-7eb11865.params"),
    (F "vocab.json") by (simpl; tauto).
  repeat split. repeat constructor.
Qed.


(** Whenever the archiving cell returns, [tar.add] was called on the five
    listed names, in order, whatever they name on disk. *)
Lemma archive_cell_adds_in_order (H : Host) (tar : list string) :
  outcome (archive_cell H) = Ok tar ->
  added_names (events (archive_cell H)) = listed_files.
Proof.
  unfold archive_cell, tar_add.
  step; [| discriminate].
  do 5 (match goal with
        | |- context [stat H ?f] =>
            destruct (stat H f) as [? | ?]; cbn [result_map]
        end;
        rewrite ?events_bind_call_ok, ?events_bind_call_raise,
          ?outcome_bind_call_ok, ?outcome_bind_call_raise;
        cbn beta; [| discriminate]).
  step; [| discriminate].
  reflexivity.
Qed.

(** * Runs on the concrete runtime *)

(** The request of the test cell yields the two lists the notebook
    prints. *)
Example demo_predictions :
  outcome (transform_fn_predictions Demo.runtime Demo.model Demo.request)
  = Ok Demo.predictions.
Proof. vm_compute. reflexivity. Qed.

Example demo_response :
  outcome (transform_fn Demo.runtime Demo.model Demo.request
             PyNone (PyStr "application/json"))
  = Ok (Demo.response, PyStr "application/json").
Proof. vm_compute. reflexivity. Qed.

(** A third example, whose n-best list has one entry, stops the request
    at [nbest[1]]. *)
Example demo_short_nbest :
  outcome (nbest_loop Demo.runtime (Demo.nbest_table 2) (seq 0 3) [])
  = Raise IndexError.
Proof. vm_compute. reflexivity. Qed.

(** A directory handed to [tar.add] brings its entries along. *)
Example demo_directory_members :
  outcome (tar_add Demo.host [] "bert")
  = Ok ["bert"; "bert/data"; "bert/data/qa.py"].
Proof. vm_compute. reflexivity. Qed.

(** C1 on the request of the test cell. *)
Lemma transform_fn_json_in_json_out_witness :
  outcome (transform_fn Demo.runtime Demo.model Demo.request
             PyNone (PyStr "application/json"))
  = Ok (Demo.response, PyStr "application/json") /\
  ((exists data, json_loads Demo.runtime Demo.request = Ok data) /\
   In (OpJsonLoads Demo.request, None)
      (events (transform_fn Demo.runtime Demo.model Demo.request
                 PyNone (PyStr "application/json"))) /\
   exists all_predictions : list (ExampleId Demo.runtime * list string),
     outcome (transform_fn_predictions Demo.runtime Demo.model Demo.request)
     = Ok all_predictions /\
     json_dumps Demo.runtime all_predictions = Ok Demo.response).
Proof.
  assert (E : outcome (transform_fn Demo.runtime Demo.model Demo.request
                         PyNone (PyStr "application/json"))
              = Ok (Demo.response, PyStr "application/json"))
    by (vm_compute; reflexivity).
  split; [exact E |].
  exact (transform_fn_json_in_json_out Demo.runtime Demo.model Demo.request
           PyNone (PyStr "application/json") _ _ E).
Defined.

(** C3 on a disk that holds the five files. *)
Lemma archive_cell_members_witness :
  tar_open Demo.host "model.tar.gz" "w:gz" = Ok tt /\
  tar_close Demo.host = Ok tt /\
  (forall f, In f listed_files -> stat Demo.host f = Ok File) /\
  outcome (archive_cell Demo.host) = Ok listed_files /\
  added_names (events (archive_cell Demo.host)) = listed_files /\
  quiet (events (archive_cell Demo.host)).
Proof.
  assert (F : forall f, In f listed_files -> stat Demo.host f = Ok File).
  { intros f I. simpl in I.
    destruct I as [<- | [<- | [<- | [<- | [<- | []]]]]]; reflexivity. }
  split; [reflexivity |]. split; [reflexivity |]. split; [exact F |].
  exact (archive_cell_members Demo.host eq_refl eq_refl F).
Defined.

(** C4 on the handle loaded from the working directory. *)
Lemma model_fn_handle_fits_transform_fn_witness :
  outcome (model_fn Demo.runtime "bert_qa-7eb11865.params" EmptyString)
  = Ok Demo.model /\
  exists net vocab transform : Obj Demo.runtime,
    Demo.model = PyTuple [PyObj net; PyObj vocab; PyObj transform] /\
    unpack3 Demo.model = Ok (PyObj net, PyObj vocab, PyObj transform) /\
    forall (input_data : string) (ict oct : value Demo.runtime),
      hd_error (events (transform_fn Demo.runtime Demo.model input_data
                          ict oct))
      = Some (OpUnpackModel, None).
Proof.
  split; [reflexivity |].
  exact (model_fn_handle_fits_transform_fn Demo.runtime
           "bert_qa-7eb11865.params" EmptyString Demo.model eq_refl).
Defined.

(** C5 on the request of the test cell. *)
Lemma transform_fn_formats_nbest_entries_witness :
  outcome (transform_fn Demo.runtime Demo.model Demo.request
             PyNone (PyStr "application/json"))
  = Ok (Demo.response, PyStr "application/json") /\
  exists all_predictions : list (ExampleId Demo.runtime * list string),
    outcome (transform_fn_predictions Demo.runtime Demo.model Demo.request)
    = Ok all_predictions /\
    json_dumps Demo.runtime all_predictions = Ok Demo.response /\
    forall (f_id : ExampleId Demo.runtime) (l : list string) (s : string),
      In (f_id, l) all_predictions -> In s l ->
      exists features results tokenizer prediction nbest text p,
        predict Demo.runtime features results tokenizer
        = Ok (prediction, nbest) /\
        In (text, p) nbest /\
        s = (fmt_2f Demo.runtime (times100 Demo.runtime p)
             ++ "% " ++ tab ++ " " ++ text)%string.
Proof.
  assert (E : outcome (transform_fn Demo.runtime Demo.model Demo.request
                         PyNone (PyStr "application/json"))
              = Ok (Demo.response, PyStr "application/json"))
    by (vm_compute; reflexivity).
  split; [exact E |].
  exact (transform_fn_formats_nbest_entries Demo.runtime Demo.model
           Demo.request PyNone (PyStr "application/json") _ _ E).
Defined.


(** * Further properties *)

(** ** Laws of the monad *)

Lemma bind_ret_l (A B : Type) (a : A) (f : A -> M B) :
  bind (ret a) f = f a.
Proof. unfold bind, ret. now destruct (f a). Qed.

Lemma bind_assoc (A B C : Type) (m : M A) (f : A -> M B) (g : B -> M C) :
  bind (bind m f) g = bind m (fun a => bind (f a) g).
Proof.
  unfold bind. destruct m as [t [a | e]]; [| reflexivity].
  destruct (f a) as [t' [b | e]]; [| reflexivity].
  destruct (g b) as [t'' r]. now rewrite app_assoc.
Qed.

Lemma bind_ext (A B : Type) (m : M A) (f g : A -> M B) :
  (forall a, f a = g a) -> bind m f = bind m g.
Proof.
  intro E. unfold bind. destruct m as [t [a | e]]; [| reflexivity].
  now rewrite E.
Qed.

Lemma calls_app (o : op) (t1 t2 : trace) :
  calls o (t1 ++ t2) = calls o t1 + calls o t2.
Proof. unfold calls. now rewrite map_app, count_occ_app. Qed.

(** ** The loop over the features *)

Section FeaturesLoop.

Variable R : Runtime.

(** Iterating over two runs of steps is iterating over the first and
    then, from the dictionary reached, over the second. *)
Lemma features_loop_app (vocab : value R) (all_results : Obj R)
    (steps1 steps2 : list (result (Obj R)))
    (acc : list (ExampleId R * list string)) :
  features_loop R vocab all_results (steps1 ++ steps2) acc
  = bind (features_loop R vocab all_results steps1 acc)
         (fun d => features_loop R vocab all_results steps2 d).
Proof.
  revert acc. induction steps1 as [| step steps1 IH]; intro acc.
  - cbn [features_loop app]. now rewrite bind_ret_l.
  - cbn [features_loop app].
    repeat (rewrite bind_assoc; apply bind_ext;
            intro; repeat match goal with
                          | x : (_ * _)%type |- _ => destruct x
                          end).
    apply IH.
Qed.

(** One returning iteration, step by step. *)
Lemma features_loop_cons_inv (vocab : value R) (all_results : Obj R)
    (step : result (Obj R)) (steps : list (result (Obj R)))
    (acc d : list (ExampleId R * list string)) :
  outcome (features_loop R vocab all_results (step :: steps) acc) = Ok d ->
  exists features f_id results tokenizer prediction nbest,
    step = Ok features /\
    example_id R features = Ok f_id /\
    results_lookup R all_results f_id = Ok results /\
    BERTBasicTokenizer R vocab = Ok tokenizer /\
    predict R features results tokenizer = Ok (prediction, nbest) /\
    3 <= length nbest /\
    events (features_loop R vocab all_results (step :: steps) acc)
    = iteration_events
      ++ events (features_loop R vocab all_results steps
                   (dict_set R f_id
                      (map (entry_string R) (firstn 3 nbest)) acc)) /\
    outcome (features_loop R vocab all_results steps
               (dict_set R f_id (map (entry_string R) (firstn 3 nbest)) acc))
    = Ok d.
Proof.
  intro E. assert (E' := E). cbn [features_loop] in E'.
  bind_inv E' as features Enext.
  bind_inv E' as f_id Eid.
  bind_inv E' as results Eres.
  bind_inv E' as tokenizer Etok.
  bind_inv E' as [prediction nbest] Epredict.
  bind_inv E' as nbest_prediction Enbest.
  apply nbest_loop_ok_inv in Enbest. destruct Enbest as [L ->].
  exists features, f_id, results, tokenizer, prediction, nbest.
  repeat (split; [assumption |]).
  split; [| exact E'].
  cbn [features_loop].
  rewrite Enext, events_bind_call_ok.
  rewrite Eid, events_bind_call_ok.
  rewrite Eres, events_bind_call_ok.
  rewrite Etok, events_bind_call_ok.
  rewrite Epredict, events_bind_call_ok.
  rewrite events_bind, (nbest_loop_three R nbest L).
  reflexivity.
Qed.

End FeaturesLoop.

Section Dictionary.

Variable R : Runtime.

(** An assignment keeps the keys in place and puts a new key last. *)
Lemma dict_set_keys (f_id : ExampleId R) (v : list string)
    (d : list (ExampleId R * list string)) :
  map fst (dict_set R f_id v d)
  = if has_key R f_id d then map fst d else map fst d ++ [f_id].
Proof.
  unfold has_key. induction d as [| [k w] d IH]; simpl.
  - reflexivity.
  - destruct (eid_eqb R k f_id); simpl.
    + reflexivity.
    + rewrite IH. now destruct (existsb _ d).
Qed.

Lemma dict_set_length (f_id : ExampleId R) (v : list string)
    (d : list (ExampleId R * list string)) :
  length d <= length (dict_set R f_id v d) <= S (length d) /\
  0 < length (dict_set R f_id v d).
Proof.
  rewrite <- (length_map fst (dict_set R f_id v d)), dict_set_keys.
  destruct (has_key R f_id d) eqn:K.
  - rewrite length_map. split; [lia |].
    destruct d; [discriminate K | simpl; lia].
  - rewrite length_app, length_map. simpl. lia.
Qed.

Lemma dict_set_distinct (f_id : ExampleId R) (v : list string)
    (d : list (ExampleId R * list string)) :
  distinct_keys R d -> distinct_keys R (dict_set R f_id v d).
Proof.
  unfold distinct_keys. induction d as [| [k w] d IH]; simpl; intro D.
  - repeat constructor.
  - inversion D as [| a l Hk Hd]; subst.
    destruct (eid_eqb R k f_id) eqn:K.
    + constructor; assumption.
    + constructor; [| now apply IH].
      apply Forall_forall. intros [k' w'] I.
      assert (Ik : In k' (map fst (dict_set R f_id v d)))
        by (change k' with (fst (k', w')); now apply in_map).
      rewrite dict_set_keys in Ik.
      assert (Ik' : In k' (map fst d) \/ k' = f_id).
      { destruct (has_key R f_id d); [now left |].
        apply in_app_or in Ik. destruct Ik as [Ik | [<- | []]]; auto. }
      destruct Ik' as [Ik' | ->]; [| exact K].
      apply in_map_iff in Ik'. destruct Ik' as ([k'' w''] & <- & I').
      exact (proj1 (Forall_forall _ _) Hk _ I').
Qed.

(** What an assignment leaves under a key: the new list, under the
    assigned key or an equal one that was there, or an old entry. *)
Lemma dict_set_in_key (f_id : ExampleId R) (v : list string)
    (d : list (ExampleId R * list string)) (k : ExampleId R)
    (l : list string) :
  In (k, l) (dict_set R f_id v d) ->
  (l = v /\ (k = f_id \/ eid_eqb R k f_id = true)) \/ In (k, l) d.
Proof.
  induction d as [| [k' w] d IH]; simpl.
  - intros [E | []]. injection E as <- <-. left. auto.
  - destruct (eid_eqb R k' f_id) eqn:K; simpl.
    + intros [E | I]; [| right; now right].
      injection E as <- <-. left. auto.
    + intros [E | I]; [right; now left |].
      destruct (IH I) as [L | I']; [now left | right; now right].
Qed.

(** The assigned list is in the dictionary afterwards, under a key equal
    to the assigned one. *)
Lemma dict_set_stores (f_id : ExampleId R) (v : list string)
    (d : list (ExampleId R * list string)) :
  eid_eqb R f_id f_id = true ->
  exists k, In (k, v) (dict_set R f_id v d) /\ eid_eqb R k f_id = true.
Proof.
  intro Refl. induction d as [| [k' w] d IH]; simpl.
  - exists f_id. auto.
  - destruct (eid_eqb R k' f_id) eqn:K.
    + exists k'. simpl. auto.
    + destruct IH as (k & I & E). exists k. simpl. auto.
Qed.

End Dictionary.

Section Returning.

Variable R : Runtime.

Lemma features_loop_events (vocab : value R) (all_results : Obj R)
    (steps : list (result (Obj R)))
    (acc d : list (ExampleId R * list string)) :
  outcome (features_loop R vocab all_results steps acc) = Ok d ->
  events (features_loop R vocab all_results steps acc)
  = concat (map (fun _ => iteration_events) steps).
Proof.
  revert acc. induction steps as [| step steps IH]; intros acc E.
  - reflexivity.
  - destruct (features_loop_cons_inv _ _ _ _ _ _ _ E)
      as (features & f_id & results & tokenizer & prediction & nbest
          & _ & _ & _ & _ & _ & _ & Ev & E').
    rewrite Ev, (IH _ E'). reflexivity.
Qed.

Lemma features_loop_distinct (vocab : value R) (all_results : Obj R)
    (steps : list (result (Obj R)))
    (acc d : list (ExampleId R * list string)) :
  distinct_keys R acc ->
  outcome (features_loop R vocab all_results steps acc) = Ok d ->
  distinct_keys R d.
Proof.
  revert acc. induction steps as [| step steps IH]; intros acc D E.
  - simpl in E. now injection E as <-.
  - destruct (features_loop_cons_inv _ _ _ _ _ _ _ E)
      as (features & f_id & results & tokenizer & prediction & nbest
          & _ & _ & _ & _ & _ & _ & _ & E').
    refine (IH _ _ E'). now apply dict_set_distinct.
Qed.

Lemma features_loop_length (vocab : value R) (all_results : Obj R)
    (steps : list (result (Obj R)))
    (acc d : list (ExampleId R * list string)) :
  outcome (features_loop R vocab all_results steps acc) = Ok d ->
  length acc <= length d <= length acc + length steps /\
  (steps <> [] -> 0 < length d).
Proof.
  revert acc. induction steps as [| step steps IH]; intros acc E.
  - simpl in E. injection E as <-. simpl. split; [lia | congruence].
  - destruct (features_loop_cons_inv _ _ _ _ _ _ _ E)
      as (features & f_id & results & tokenizer & prediction & nbest
          & _ & _ & _ & _ & _ & _ & _ & E').
    destruct (IH _ E') as [B _].
    pose proof (dict_set_length R f_id
                  (map (entry_string R) (firstn 3 nbest)) acc) as S.
    simpl. split; [lia | intros _; lia].
Qed.

Lemma features_loop_attributed (vocab : value R) (all_results : Obj R)
    (steps : list (result (Obj R)))
    (acc d : list (ExampleId R * list string)) :
  attributed R all_results acc ->
  outcome (features_loop R vocab all_results steps acc) = Ok d ->
  attributed R all_results d.
Proof.
  revert acc. induction steps as [| step steps IH]; intros acc A E.
  - simpl in E. now injection E as <-.
  - destruct (features_loop_cons_inv _ _ _ _ _ _ _ E)
      as (features & f_id & results & tokenizer & prediction & nbest
          & _ & Eid & Eres & _ & Epredict & _ & _ & E').
    refine (IH _ _ E'). clear IH E E'.
    intros k l I. apply dict_set_in_key in I.
    destruct I as [[-> K] | I]; [| exact (A k l I)].
    now exists features, f_id, results, tokenizer, prediction, nbest.
Qed.

(** What a returning run of the body went through before the loop. *)
Lemma transform_fn_predictions_inv (model : value R) (input_data : string)
    (d : list (ExampleId R * list string)) :
  outcome (transform_fn_predictions R model input_data) = Ok d ->
  exists net vocab squadTransform data tuples test_dataset ctx all_results
         fn data_transform,
    unpack3 model = Ok (net, vocab, squadTransform) /\
    json_loads R input_data = Ok data /\
    _test_example_transform R data = Ok tuples /\
    SimpleDataset R tuples = Ok test_dataset /\
    cpu R = Ok ctx /\
    get_all_results R net vocab squadTransform test_dataset ctx
    = Ok all_results /\
    _transform R squadTransform = Ok fn /\
    dataset_transform R test_dataset fn = Ok data_transform /\
    outcome (features_loop R vocab all_results (iterate R data_transform) [])
    = Ok d /\
    events (transform_fn_predictions R model input_data)
    = preamble_events input_data
      ++ events (features_loop R vocab all_results
                   (iterate R data_transform) []).
Proof.
  unfold transform_fn_predictions. intro E. assert (E' := E).
  bind_inv E' as [[net vocab] squadTransform] Eunpack.
  bind_inv E' as data Eloads.
  bind_inv E' as tuples Etuples.
  bind_inv E' as test_dataset Edataset.
  bind_inv E' as ctx Ectx.
  bind_inv E' as all_results Eresults.
  bind_inv E' as fn Efn.
  bind_inv E' as data_transform Etransform.
  exists net, vocab, squadTransform, data, tuples, test_dataset, ctx,
    all_results, fn, data_transform.
  repeat (split; [assumption |]).
  rewrite Eunpack, events_bind_call_ok. cbn beta iota.
  rewrite Eloads, events_bind_call_ok.
  rewrite Etuples, events_bind_call_ok.
  rewrite Edataset, events_bind_call_ok.
  rewrite Ectx, events_bind_call_ok.
  rewrite Eresults, events_bind_call_ok.
  rewrite Efn, events_bind_call_ok.
  rewrite Etransform, events_bind_call_ok.
  reflexivity.
Qed.

Lemma transform_fn_inv (model : value R) (input_data : string)
    (ict oct : value R) (response_body : string) (content_type : value R) :
  outcome (transform_fn R model input_data ict oct)
  = Ok (response_body, content_type) ->
  exists d : list (ExampleId R * list string),
    outcome (transform_fn_predictions R model input_data) = Ok d /\
    json_dumps R d = Ok response_body /\
    events (transform_fn R model input_data ict oct)
    = events (transform_fn_predictions R model input_data)
      ++ [(OpJsonDumps, None)].
Proof.
  intro E. unfold transform_fn in E |- *.
  bind_inv E as d Epred.
  bind_inv E as body Edumps.
  rewrite outcome_ret in E. injection E as -> _.
  exists d. repeat split; try assumption.
  rewrite events_bind, Epred, Edumps, events_bind_call_ok. reflexivity.
Qed.

Lemma calls_iterations (o : op) (A : Type) (steps : list A) :
  calls o (concat (map (fun _ => iteration_events) steps))
  = length steps * calls o iteration_events.
Proof.
  induction steps as [| step steps IH]; [reflexivity |].
  cbn [concat map length]. rewrite calls_app, IH. lia.
Qed.

End Returning.

(** ** What a returning request went through *)

(** X1. A run of [transform_fn] that returns has a fixed shape: the eight
    operations before the loop, eleven operations for each feature the
    transformed dataset yields, and the serialisation.  So the network is
    evaluated over the whole dataset once, while [predict] is called, and
    a tokenizer built, once per feature. *)
Theorem transform_fn_returning_trace (R : Runtime) (model : value R)
    (input_data : string) (ict oct : value R)
    (response_body : string) (content_type : value R) :
  outcome (transform_fn R model input_data ict oct)
  = Ok (response_body, content_type) ->
  exists test_dataset fn data_transform,
    dataset_transform R test_dataset fn = Ok data_transform /\
    events (transform_fn R model input_data ict oct)
    = preamble_events input_data
      ++ concat (map (fun _ => iteration_events) (iterate R data_transform))
      ++ [(OpJsonDumps, None)] /\
    calls OpGetAllResults (events (transform_fn R model input_data ict oct))
    = 1 /\
    calls OpPredict (events (transform_fn R model input_data ict oct))
    = length (iterate R data_transform) /\
    calls OpBERTBasicTokenizer
      (events (transform_fn R model input_data ict oct))
    = length (iterate R data_transform).
Proof.
  intro E.
  destruct (transform_fn_inv _ _ _ _ _ _ _ E) as (d & Epred & _ & Ev).
  destruct (transform_fn_predictions_inv _ _ _ _ Epred)
    as (net & vocab & squadTransform & data & tuples & test_dataset & ctx
        & all_results & fn & data_transform
        & _ & _ & _ & _ & _ & _ & _ & Etransform & Eloop & Ev').
  exists test_dataset, fn, data_transform.
  split; [exact Etransform |].
  assert (Shape : events (transform_fn R model input_data ict oct)
                  = preamble_events input_data
                    ++ concat (map (fun _ => iteration_events)
                                 (iterate R data_transform))
                    ++ [(OpJsonDumps, None)]).
  { rewrite Ev, Ev', (features_loop_events _ _ _ _ _ _ Eloop).
    now rewrite <- app_assoc. }
  split; [exact Shape |].
  rewrite Shape, !calls_app, !calls_iterations.
  repeat split; unfold calls; simpl; lia.
Qed.

(** X1 on the request of the test cell: two features. *)
Lemma transform_fn_returning_trace_witness :
  outcome (transform_fn Demo.runtime Demo.model Demo.request
             PyNone (PyStr "application/json"))
  = Ok (Demo.response, PyStr "application/json") /\
  exists test_dataset fn data_transform,
    dataset_transform Demo.runtime test_dataset fn = Ok data_transform /\
    events (transform_fn Demo.runtime Demo.model Demo.request
              PyNone (PyStr "application/json"))
    = preamble_events Demo.request
      ++ concat (map (fun _ => iteration_events)
                   (iterate Demo.runtime data_transform))
      ++ [(OpJsonDumps, None)] /\
    calls OpGetAllResults
      (events (transform_fn Demo.runtime Demo.model Demo.request
                 PyNone (PyStr "application/json")))
    = 1 /\
    calls OpPredict
      (events (transform_fn Demo.runtime Demo.model Demo.request
                 PyNone (PyStr "application/json")))
    = length (iterate Demo.runtime data_transform) /\
    calls OpBERTBasicTokenizer
      (events (transform_fn Demo.runtime Demo.model Demo.request
                 PyNone (PyStr "application/json")))
    = length (iterate Demo.runtime data_transform).
Proof.
  assert (E : outcome (transform_fn Demo.runtime Demo.model Demo.request
                         PyNone (PyStr "application/json"))
              = Ok (Demo.response, PyStr "application/json"))
    by (vm_compute; reflexivity).
  split; [exact E |].
  exact (transform_fn_returning_trace Demo.runtime Demo.model Demo.request
           PyNone (PyStr "application/json") _ _ E).
Defined.

(** X2. The dictionary a returning [transform_fn] serialises has no two
    entries with equal ids, has at most one entry per call of [predict],
    and is empty only if no feature was iterated. *)
Theorem response_has_one_entry_per_id (R : Runtime) (model : value R)
    (input_data : string) (ict oct : value R)
    (response_body : string) (content_type : value R) :
  outcome (transform_fn R model input_data ict oct)
  = Ok (response_body, content_type) ->
  exists all_predictions : list (ExampleId R * list string),
    outcome (transform_fn_predictions R model input_data)
    = Ok all_predictions /\
    json_dumps R all_predictions = Ok response_body /\
    distinct_keys R all_predictions /\
    length all_predictions
    <= calls OpPredict (events (transform_fn R model input_data ict oct)) /\
    (0 < calls OpPredict (events (transform_fn R model input_data ict oct))
     -> 0 < length all_predictions).
Proof.
  intro E.
  destruct (transform_fn_inv _ _ _ _ _ _ _ E) as (d & Epred & Edumps & Ev).
  destruct (transform_fn_predictions_inv _ _ _ _ Epred)
    as (net & vocab & squadTransform & data & tuples & test_dataset & ctx
        & all_results & fn & data_transform
        & _ & _ & _ & _ & _ & _ & _ & _ & Eloop & Ev').
  exists d. repeat (split; [assumption |]).
  split; [exact (features_loop_distinct _ _ _ _ _ _
                   (FOP_nil _) Eloop) |].
  assert (N : calls OpPredict (events (transform_fn R model input_data ict oct))
              = length (iterate R data_transform)).
  { rewrite Ev, Ev', (features_loop_events _ _ _ _ _ _ Eloop).
    rewrite !calls_app, calls_iterations. unfold calls. simpl. lia. }
  rewrite N. destruct (features_loop_length _ _ _ _ _ _ Eloop) as [B P].
  simpl in B. split; [lia |].
  intro L. apply P. intro Nil. rewrite Nil in L. simpl in L. lia.
Qed.

(** X2 on the request of the test cell. *)
Lemma response_has_one_entry_per_id_witness :
  outcome (transform_fn Demo.runtime Demo.model Demo.request
             PyNone (PyStr "application/json"))
  = Ok (Demo.response, PyStr "application/json") /\
  exists all_predictions : list (ExampleId Demo.runtime * list string),
    outcome (transform_fn_predictions Demo.runtime Demo.model Demo.request)
    = Ok all_predictions /\
    json_dumps Demo.runtime all_predictions = Ok Demo.response /\
    distinct_keys Demo.runtime all_predictions /\
    length all_predictions
    <= calls OpPredict
         (events (transform_fn Demo.runtime Demo.model Demo.request
                    PyNone (PyStr "application/json"))) /\
    (0 < calls OpPredict
           (events (transform_fn Demo.runtime Demo.model Demo.request
                      PyNone (PyStr "application/json")))
     -> 0 < length all_predictions).
Proof.
  assert (E : outcome (transform_fn Demo.runtime Demo.model Demo.request
                         PyNone (PyStr "application/json"))
              = Ok (Demo.response, PyStr "application/json"))
    by (vm_compute; reflexivity).
  split; [exact E |].
  exact (response_has_one_entry_per_id Demo.runtime Demo.model Demo.request
           PyNone (PyStr "application/json") _ _ E).
Defined.

(** X3. Answers are not mixed up between examples: every list of the
    serialised dictionary comes from [predict] on a feature whose id is
    the key (or equal to it), with the results that the one call of
    [get_all_results] holds under that id. *)
Theorem response_entries_attributed (R : Runtime) (model : value R)
    (input_data : string) (ict oct : value R)
    (response_body : string) (content_type : value R) :
  outcome (transform_fn R model input_data ict oct)
  = Ok (response_body, content_type) ->
  exists (all_predictions : list (ExampleId R * list string))
         (net vocab squadTransform : value R)
         (test_dataset ctx all_results : Obj R),
    get_all_results R net vocab squadTransform test_dataset ctx
    = Ok all_results /\
    outcome (transform_fn_predictions R model input_data)
    = Ok all_predictions /\
    json_dumps R all_predictions = Ok response_body /\
    attributed R all_results all_predictions.
Proof.
  intro E.
  destruct (transform_fn_inv _ _ _ _ _ _ _ E) as (d & Epred & Edumps & _).
  destruct (transform_fn_predictions_inv _ _ _ _ Epred)
    as (net & vocab & squadTransform & data & tuples & test_dataset & ctx
        & all_results & fn & data_transform
        & _ & _ & _ & _ & _ & Eresults & _ & _ & Eloop & _).
  exists d, net, vocab, squadTransform, test_dataset, ctx, all_results.
  repeat (split; [assumption |]).
  refine (features_loop_attributed _ _ _ _ _ _ _ Eloop).
  intros k l [].
Qed.

(** X3 on the request of the test cell. *)
Lemma response_entries_attributed_witness :
  outcome (transform_fn Demo.runtime Demo.model Demo.request
             PyNone (PyStr "application/json"))
  = Ok (Demo.response, PyStr "application/json") /\
  exists (all_predictions : list (ExampleId Demo.runtime * list string))
         (net vocab squadTransform : value Demo.runtime)
         (test_dataset ctx all_results : Obj Demo.runtime),
    get_all_results Demo.runtime net vocab squadTransform test_dataset ctx
    = Ok all_results /\
    outcome (transform_fn_predictions Demo.runtime Demo.model Demo.request)
    = Ok all_predictions /\
    json_dumps Demo.runtime all_predictions = Ok Demo.response /\
    attributed Demo.runtime all_results all_predictions.
Proof.
  assert (E : outcome (transform_fn Demo.runtime Demo.model Demo.request
                         PyNone (PyStr "application/json"))
              = Ok (Demo.response, PyStr "application/json"))
    by (vm_compute; reflexivity).
  split; [exact E |].
  exact (response_entries_attributed Demo.runtime Demo.model Demo.request
           PyNone (PyStr "application/json") _ _ E).
Defined.

(** ** Repeated ids and short n-best lists *)

(** X4. The last feature wins: when the loop returns, the predictions of
    the feature iterated last are in the dictionary, under a key equal to
    its id, whatever was stored under that id before. *)
Theorem last_feature_is_stored (R : Runtime) (vocab : value R)
    (all_results : Obj R) (steps : list (result (Obj R)))
    (features : Obj R) (f_id : ExampleId R)
    (acc d : list (ExampleId R * list string)) :
  outcome (features_loop R vocab all_results (steps ++ [Ok features]) acc)
  = Ok d ->
  example_id R features = Ok f_id ->
  eid_eqb R f_id f_id = true ->
  exists k results tokenizer prediction nbest,
    predict R features results tokenizer = Ok (prediction, nbest) /\
    In (k, map (entry_string R) (firstn 3 nbest)) d /\
    eid_eqb R k f_id = true.
Proof.
  intros E Eid Refl. rewrite features_loop_app in E.
  bind_inv E as d1 E1.
  destruct (features_loop_cons_inv _ _ _ _ _ _ _ E)
    as (features' & f_id' & results & tokenizer & prediction & nbest
        & Estep & Eid' & _ & _ & Epredict & _ & _ & E').
  injection Estep as <-.
  rewrite Eid in Eid'. injection Eid' as <-.
  simpl in E'. injection E' as <-.
  destruct (dict_set_stores R f_id (map (entry_string R) (firstn 3 nbest))
              d1 Refl) as (k & I & K).
  now exists k, results, tokenizer, prediction, nbest.
Qed.

(** X4 on a dictionary that already holds a list under id 0. *)
Lemma last_feature_is_stored_witness :
  outcome (features_loop Demo.runtime (PyObj Demo.Vocab)
             (Demo.AllResults [0]) ([] ++ [Ok (Demo.Features 0 "q" "c")])
             [(0, ["stale"])])
  = Ok [(0, map (entry_string Demo.runtime)
              (firstn 3 (Demo.nbest_table 0)))] /\
  example_id Demo.runtime (Demo.Features 0 "q" "c") = Ok 0 /\
  eid_eqb Demo.runtime 0 0 = true /\
  exists k results tokenizer prediction nbest,
    predict Demo.runtime (Demo.Features 0 "q" "c") results tokenizer
    = Ok (prediction, nbest) /\
    In (k, map (entry_string Demo.runtime) (firstn 3 nbest))
       [(0, map (entry_string Demo.runtime)
              (firstn 3 (Demo.nbest_table 0)))] /\
    eid_eqb Demo.runtime k 0 = true.
Proof.
  assert (E : outcome (features_loop Demo.runtime (PyObj Demo.Vocab)
                         (Demo.AllResults [0])
                         ([] ++ [Ok (Demo.Features 0 "q" "c")])
                         [(0, ["stale"])])
              = Ok [(0, map (entry_string Demo.runtime)
                          (firstn 3 (Demo.nbest_table 0)))])
    by (vm_compute; reflexivity).
  split; [exact E |]. split; [reflexivity |]. split; [reflexivity |].
  exact (last_feature_is_stored Demo.runtime (PyObj Demo.Vocab)
           (Demo.AllResults [0]) [] (Demo.Features 0 "q" "c") 0
           [(0, ["stale"])] _ E eq_refl eq_refl).
Defined.

(** X5. One feature with fewer than three candidates fails the whole
    loop: wherever it stands among the features, and whatever the
    features before it stored, the loop raises IndexError. *)
Theorem short_nbest_fails_the_loop (R : Runtime) (vocab : value R)
    (all_results : Obj R) (steps1 steps2 : list (result (Obj R)))
    (features results tokenizer prediction : Obj R) (f_id : ExampleId R)
    (nbest : list (string * Prob R))
    (acc d1 : list (ExampleId R * list string)) :
  outcome (features_loop R vocab all_results steps1 acc) = Ok d1 ->
  example_id R features = Ok f_id ->
  results_lookup R all_results f_id = Ok results ->
  BERTBasicTokenizer R vocab = Ok tokenizer ->
  predict R features results tokenizer = Ok (prediction, nbest) ->
  length nbest < 3 ->
  outcome (features_loop R vocab all_results
             (steps1 ++ Ok features :: steps2) acc)
  = Raise IndexError.
Proof.
  intros E1 Eid Eres Etok Epredict L.
  rewrite features_loop_app, outcome_bind, E1.
  cbn [features_loop].
  rewrite outcome_bind_call_ok.
  rewrite Eid, outcome_bind_call_ok.
  rewrite Eres, outcome_bind_call_ok.
  rewrite Etok, outcome_bind_call_ok.
  rewrite Epredict, outcome_bind_call_ok.
  now rewrite outcome_bind, (nbest_loop_short R nbest L).
Qed.

(** X5 on a third feature whose n-best list has one entry, after two
    features that are answered. *)
Lemma short_nbest_fails_the_loop_witness :
  outcome (features_loop Demo.runtime (PyObj Demo.Vocab)
             (Demo.AllResults [0; 1; 2])
             [Ok (Demo.Features 0 "q0" "c0"); Ok (Demo.Features 1 "q1" "c1")]
             [])
  = Ok Demo.predictions /\
  length (Demo.nbest_table 2) < 3 /\
  outcome (features_loop Demo.runtime (PyObj Demo.Vocab)
             (Demo.AllResults [0; 1; 2])
             ([Ok (Demo.Features 0 "q0" "c0");
               Ok (Demo.Features 1 "q1" "c1")]
              ++ Ok (Demo.Features 2 "q2" "c2") :: [])
             [])
  = Raise IndexError.
Proof.
  assert (E : outcome (features_loop Demo.runtime (PyObj Demo.Vocab)
                         (Demo.AllResults [0; 1; 2])
                         [Ok (Demo.Features 0 "q0" "c0");
                          Ok (Demo.Features 1 "q1" "c1")] [])
              = Ok Demo.predictions)
    by (vm_compute; reflexivity).
  assert (L : length (Demo.nbest_table 2) < 3) by (simpl; lia).
  split; [exact E |]. split; [exact L |].
  exact (short_nbest_fails_the_loop Demo.runtime (PyObj Demo.Vocab)
           (Demo.AllResults [0; 1; 2]) _ []
           (Demo.Features 2 "q2" "c2") (Demo.Results 2) Demo.BasicTokenizer
           (Demo.Prediction EmptyString) 2 (Demo.nbest_table 2) [] _
           E eq_refl eq_refl eq_refl eq_refl L).
Defined.

(** The request with a third example raises at the third feature, and
    nothing is serialised. *)
Example demo_short_request :
  outcome (transform_fn Demo.runtime Demo.model Demo.request3
             PyNone PyNone)
  = Raise IndexError /\
  calls OpPredict
    (events (transform_fn Demo.runtime Demo.model Demo.request3
               PyNone PyNone)) = 3 /\
  calls OpJsonDumps
    (events (transform_fn Demo.runtime Demo.model Demo.request3
               PyNone PyNone)) = 0.
Proof. vm_compute. repeat split. Qed.

(** ** The handle *)

(** X7. In a run of [model_fn] that returns, the six library calls were
    made in source order and all returned; the network of the handle is
    the one [load_parameters] gave back for the network built on the
    BERT model, its vocabulary is the one [get_model] returned, and its
    transform is built on a tokenizer over that same vocabulary. *)
Theorem model_fn_returning_run (R : Runtime)
    (params_path model_dir : string) (model : value R) :
  outcome (model_fn R params_path model_dir) = Ok model ->
  exists bert_model vocab net0 ctx net tokenizer transform,
    get_model R = Ok (bert_model, vocab) /\
    BertForQA R bert_model = Ok net0 /\
    cpu R = Ok ctx /\
    load_parameters R net0
      (if 0 <? String.length model_dir
       then (model_dir ++ "/" ++ params_path)%string
       else params_path) ctx = Ok net /\
    BERTTokenizer R vocab = Ok tokenizer /\
    SQuADTransform R tokenizer = Ok transform /\
    model = PyTuple [PyObj net; PyObj vocab; PyObj transform] /\
    map fst (events (model_fn R params_path model_dir))
    = [OpGetModel; OpBertForQA; OpCpu;
       OpLoadParameters (if 0 <? String.length model_dir
                         then (model_dir ++ "/" ++ params_path)%string
                         else params_path);
       OpBERTTokenizer; OpSQuADTransform].
Proof.
  intro E. assert (E' := E). unfold model_fn in E'.
  bind_inv E' as [bert_model vocab] Eget.
  bind_inv E' as net0 Enet.
  cbv zeta in E'.
  bind_inv E' as ctx Ectx.
  bind_inv E' as net Eload.
  bind_inv E' as tokenizer Etok.
  bind_inv E' as transform Etransform.
  rewrite outcome_ret in E'. injection E' as <-.
  exists bert_model, vocab, net0, ctx, net, tokenizer, transform.
  repeat (split; [assumption || reflexivity |]).
  unfold model_fn.
  rewrite Eget, events_bind_call_ok. cbn beta iota.
  rewrite Enet, events_bind_call_ok. cbn beta zeta.
  rewrite Ectx, events_bind_call_ok.
  rewrite Eload, events_bind_call_ok.
  rewrite Etok, events_bind_call_ok.
  rewrite Etransform, events_bind_call_ok.
  reflexivity.
Qed.

(** X7 on the weights in the hosting directory. *)
Lemma model_fn_returning_run_witness :
  outcome (model_fn Demo.runtime "bert_qa-7eb11865.params" "/opt/ml/model")
  = Ok (PyTuple
          [PyObj (Demo.Net (Some "/opt/ml/model/bert_qa-7eb11865.params"));
           PyObj Demo.Vocab; PyObj Demo.Transform]) /\
  exists bert_model vocab net0 ctx net tokenizer transform,
    get_model Demo.runtime = Ok (bert_model, vocab) /\
    BertForQA Demo.runtime bert_model = Ok net0 /\
    cpu Demo.runtime = Ok ctx /\
    load_parameters Demo.runtime net0
      (if 0 <? String.length "/opt/ml/model"
       then ("/opt/ml/model" ++ "/" ++ "bert_qa-7eb11865.params")%string
       else "bert_qa-7eb11865.params") ctx = Ok net /\
    BERTTokenizer Demo.runtime vocab = Ok tokenizer /\
    SQuADTransform Demo.runtime tokenizer = Ok transform /\
    PyTuple
      [PyObj (Demo.Net (Some "/opt/ml/model/bert_qa-7eb11865.params"));
       PyObj Demo.Vocab; PyObj Demo.Transform]
    = PyTuple [PyObj net; PyObj vocab; PyObj transform] /\
    map fst (events (model_fn Demo.runtime "bert_qa-7eb11865.params"
                       "/opt/ml/model"))
    = [OpGetModel; OpBertForQA; OpCpu;
       OpLoadParameters
         (if 0 <? String.length "/opt/ml/model"
          then ("/opt/ml/model" ++ "/" ++ "bert_qa-7eb11865.params")%string
          else "bert_qa-7eb11865.params");
       OpBERTTokenizer; OpSQuADTransform].
Proof.
  split; [reflexivity |].
  exact (model_fn_returning_run Demo.runtime "bert_qa-7eb11865.params"
           "/opt/ml/model" _ eq_refl).
Defined.

(** ** The archiving cell, file by file *)

Section ArchiveSteps.

Variable H : Host.

Lemma archive_cell_unfold :
  archive_cell H
  = bind (call (OpTarOpen "model.tar.gz" "w:gz")
               (tar_open H "model.tar.gz" "w:gz"))
         (fun _ =>
            bind (tar_add_all H [] listed_files)
                 (fun tar =>
                    bind (call OpTarClose (tar_close H))
                         (fun _ => ret tar))).
Proof.
  unfold archive_cell, listed_files. cbn [tar_add_all].
  apply bind_ext. intros _.
  repeat (rewrite bind_assoc; apply bind_ext; intro).
  now rewrite bind_ret_l.
Qed.

Lemma added_names_app (t1 t2 : trace) :
  added_names (t1 ++ t2) = added_names t1 ++ added_names t2.
Proof. unfold added_names. now rewrite flat_map_app. Qed.

(** The pass stops at the first name that cannot be added. *)
Lemma tar_add_all_stops (tar : list string) (done : list string)
    (f : string) (rest : list string) (e : exn) :
  Forall (fun g => exists n, stat H g = Ok n) done ->
  stat H f = Raise e ->
  outcome (tar_add_all H tar (done ++ f :: rest)) = Raise e /\
  added_names (events (tar_add_all H tar (done ++ f :: rest)))
  = done ++ [f] /\
  calls OpTarClose (events (tar_add_all H tar (done ++ f :: rest))) = 0.
Proof.
  intros D F. revert tar.
  induction D as [| g done [n G] D IH]; intro tar.
  - cbn [app tar_add_all]. unfold tar_add. rewrite F. cbn [result_map].
    rewrite outcome_bind_call_raise, events_bind_call_raise.
    repeat split.
  - cbn [app tar_add_all]. unfold tar_add. rewrite G.
    cbn [result_map].
    rewrite outcome_bind_call_ok, events_bind_call_ok.
    destruct (IH (tar ++ members (lstrip_slash g) n)) as (O & A & K).
    split; [exact O |]. split.
    + change ((OpTarAdd g, None) :: ?t) with ([(OpTarAdd g, @None exn)] ++ t).
      rewrite added_names_app, A. reflexivity.
    + change ((OpTarAdd g, None) :: ?t) with ([(OpTarAdd g, @None exn)] ++ t).
      rewrite calls_app, K. reflexivity.
Qed.

Lemma members_head (name : string) (n : node) : In name (members name n).
Proof. destruct n; simpl; auto. Qed.

(** A pass that returns has stored every name, and kept what was
    there. *)
Lemma tar_add_all_includes (names : list string) (tar tar' : list string) :
  outcome (tar_add_all H tar names) = Ok tar' ->
  incl tar tar' /\ forall g, In g names -> In (lstrip_slash g) tar'.
Proof.
  revert tar. induction names as [| g names IH]; intros tar E.
  - simpl in E. injection E as <-. split; [apply incl_refl | intros g []].
  - cbn [tar_add_all] in E. unfold tar_add at 1 in E.
    bind_inv E as tar1 E1.
    destruct (stat H g) as [n | e]; [| discriminate E1].
    cbn [result_map] in E1. injection E1 as <-.
    destruct (IH _ E) as [I A]. split.
    + intros x Ix. apply I. apply in_or_app. now left.
    + intros g' [<- | Ig]; [| now apply A].
      apply I. apply in_or_app. right. apply members_head.
Qed.

End ArchiveSteps.

(** X9. A listed file that cannot be added stops the archiving cell:
    when the files before it are found and it is not, the cell raises the
    exception of that file, the files after it are never handed to
    [tar.add], and the closing call at the end of the block is not
    reached. *)
Theorem archive_stops_at_first_missing_file (H : Host)
    (done : list string) (f : string) (rest : list string) (e : exn) :
  tar_open H "model.tar.gz" "w:gz" = Ok tt ->
  listed_files = done ++ f :: rest ->
  Forall (fun g => exists n, stat H g = Ok n) done ->
  stat H f = Raise e ->
  outcome (archive_cell H) = Raise e /\
  added_names (events (archive_cell H)) = done ++ [f] /\
  calls OpTarClose (events (archive_cell H)) = 0.
Proof.
  intros O L D F. rewrite archive_cell_unfold, O, L.
  destruct (tar_add_all_stops H [] done f rest e D F) as (Out & A & K).
  rewrite outcome_bind_call_ok, events_bind_call_ok.
  rewrite outcome_bind, events_bind, Out, app_nil_r.
  split; [reflexivity |].
  change ((OpTarOpen "model.tar.gz" "w:gz", None) :: ?t)
    with ([(OpTarOpen "model.tar.gz" "w:gz", @None exn)] ++ t).
  rewrite added_names_app, calls_app, A, K. now split.
Qed.

(** X9 on a disk without [vocab.json]. *)
Lemma archive_stops_at_first_missing_file_witness :
  tar_open Demo.host_without_vocab "model.tar.gz" "w:gz" = Ok tt /\
  listed_files
  = ["code/serve.py"; "bert/data/qa.py"; "bert_qa_evaluate.py";
     "bert_qa-7eb11865.params"] ++ "vocab.json" :: [] /\
  stat Demo.host_without_vocab "vocab.json" = Raise FileNotFoundError /\
  outcome (archive_cell Demo.host_without_vocab) = Raise FileNotFoundError /\
  added_names (events (archive_cell Demo.host_without_vocab))
  = ["code/serve.py"; "bert/data/qa.py"; "bert_qa_evaluate.py";
     "bert_qa-7eb11865.params"] ++ ["vocab.json"] /\
  calls OpTarClose (events (archive_cell Demo.host_without_vocab)) = 0.
Proof.
  split; [reflexivity |]. split; [reflexivity |]. split; [reflexivity |].
  apply (archive_stops_at_first_missing_file Demo.host_without_vocab
           ["code/serve.py"; "bert/data/qa.py"; "bert_qa_evaluate.py";
            "bert_qa-7eb11865.params"]
           "vocab.json" [] FileNotFoundError eq_refl eq_refl);
    [| reflexivity].
  repeat constructor; exists File; reflexivity.
Defined.



(** ** The order of the keys *)

Lemma has_key_keys (R : Runtime) (f_id : ExampleId R)
    (d : list (ExampleId R * list string)) :
  has_key R f_id d = existsb (fun k => eid_eqb R k f_id) (map fst d).
Proof.
  unfold has_key. induction d as [| [k w] d IH]; simpl; [reflexivity |].
  now rewrite IH.
Qed.

Lemma features_loop_keys (R : Runtime) (vocab : value R)
    (all_results : Obj R) (steps : list (result (Obj R)))
    (acc d : list (ExampleId R * list string)) :
  outcome (features_loop R vocab all_results steps acc) = Ok d ->
  exists ids : list (ExampleId R),
    Forall2 (fun step f_id =>
               exists features,
                 step = Ok features /\ example_id R features = Ok f_id)
            steps ids /\
    map fst d = fold_left (add_key R) ids (map fst acc).
Proof.
  revert acc. induction steps as [| step steps IH]; intros acc E.
  - simpl in E. injection E as <-. exists []. split; [constructor |].
    reflexivity.
  - destruct (features_loop_cons_inv _ _ _ _ _ _ _ E)
      as (features & f_id & results & tokenizer & prediction & nbest
          & Estep & Eid & _ & _ & _ & _ & _ & E').
    destruct (IH _ E') as (ids & F & K).
    exists (f_id :: ids). split.
    + constructor; [now exists features | exact F].
    + rewrite K, dict_set_keys, has_key_keys. reflexivity.
Qed.

(** X13. The keys of the serialised dictionary follow the features: they
    are the ids of the iterated features in order of first occurrence, an
    id that comes again keeping the place of its first occurrence. *)
Theorem response_keys_follow_the_features (R : Runtime) (model : value R)
    (input_data : string) (ict oct : value R)
    (response_body : string) (content_type : value R) :
  outcome (transform_fn R model input_data ict oct)
  = Ok (response_body, content_type) ->
  exists (all_predictions : list (ExampleId R * list string))
         (test_dataset fn data_transform : Obj R)
         (ids : list (ExampleId R)),
    json_dumps R all_predictions = Ok response_body /\
    dataset_transform R test_dataset fn = Ok data_transform /\
    Forall2 (fun step f_id =>
               exists features,
                 step = Ok features /\ example_id R features = Ok f_id)
            (iterate R data_transform) ids /\
    map fst all_predictions = fold_left (add_key R) ids [].
Proof.
  intro E.
  destruct (transform_fn_inv _ _ _ _ _ _ _ E) as (d & Epred & Edumps & _).
  destruct (transform_fn_predictions_inv _ _ _ _ Epred)
    as (net & vocab & squadTransform & data & tuples & test_dataset & ctx
        & all_results & fn & data_transform
        & _ & _ & _ & _ & _ & _ & _ & Etransform & Eloop & _).
  destruct (features_loop_keys _ _ _ _ _ _ Eloop) as (ids & F & K).
  now exists d, test_dataset, fn, data_transform, ids.
Qed.

(** X13 on the request of the test cell: the keys are 0 and 1. *)
Lemma response_keys_follow_the_features_witness :
  outcome (transform_fn Demo.runtime Demo.model Demo.request
             PyNone (PyStr "application/json"))
  = Ok (Demo.response, PyStr "application/json") /\
  exists (all_predictions : list (ExampleId Demo.runtime * list string))
         (test_dataset fn data_transform : Obj Demo.runtime)
         (ids : list (ExampleId Demo.runtime)),
    json_dumps Demo.runtime all_predictions = Ok Demo.response /\
    dataset_transform Demo.runtime test_dataset fn = Ok data_transform /\
    Forall2 (fun step f_id =>
               exists features,
                 step = Ok features /\
                 example_id Demo.runtime features = Ok f_id)
            (iterate Demo.runtime data_transform) ids /\
    map fst all_predictions = fold_left (add_key Demo.runtime) ids [].
Proof.
  assert (E : outcome (transform_fn Demo.runtime Demo.model Demo.request
                         PyNone (PyStr "application/json"))
              = Ok (Demo.response, PyStr "application/json"))
    by (vm_compute; reflexivity).
  split; [exact E |].
  exact (response_keys_follow_the_features Demo.runtime Demo.model
           Demo.request PyNone (PyStr "application/json") _ _ E).
Defined.

(** ** A request that is not JSON *)

(** X14. A request the JSON decoder rejects costs no inference: the run
    ends at the decoder (or before it, at the handle), and neither
    [get_all_results] nor [predict] nor [json.dumps] is called. *)
Theorem bad_request_costs_no_inference (R : Runtime) (model : value R)
    (input_data : string) (ict oct : value R) (e : exn) :
  json_loads R input_data = Raise e ->
  calls OpGetAllResults (events (transform_fn R model input_data ict oct))
  = 0 /\
  calls OpPredict (events (transform_fn R model input_data ict oct)) = 0 /\
  calls OpJsonDumps (events (transform_fn R model input_data ict oct)) = 0 /\
  length (events (transform_fn R model input_data ict oct)) <= 2.
Proof.
  intro E. unfold transform_fn. rewrite events_bind.
  set (p := transform_fn_predictions R model input_data).
  assert (P : (events p = [(OpUnpackModel, None);
                           (OpJsonLoads input_data, Some e)]
               /\ outcome p = Raise e)
              \/ exists e', events p = [(OpUnpackModel, Some e')]
                            /\ outcome p = Raise e').
  { subst p. unfold transform_fn_predictions.
    destruct (unpack3 model) as [[[net vocab] squadTransform] | e'].
    - left. rewrite events_bind_call_ok, outcome_bind_call_ok.
      cbn beta iota.
      now rewrite E, events_bind_call_raise, outcome_bind_call_raise.
    - right. exists e'.
      now rewrite events_bind_call_raise, outcome_bind_call_raise. }
  destruct P as [[-> ->] | (e' & -> & ->)];
    unfold calls; simpl; repeat split; lia.
Qed.

(** X14 on a request that is not JSON. *)
Lemma bad_request_costs_no_inference_witness :
  json_loads Demo.runtime "{oops" = Raise (LibraryError "JSONDecodeError") /\
  calls OpGetAllResults
    (events (transform_fn Demo.runtime Demo.model "{oops" PyNone PyNone))
  = 0 /\
  calls OpPredict
    (events (transform_fn Demo.runtime Demo.model "{oops" PyNone PyNone))
  = 0 /\
  calls OpJsonDumps
    (events (transform_fn Demo.runtime Demo.model "{oops" PyNone PyNone))
  = 0 /\
  length (events (transform_fn Demo.runtime Demo.model "{oops"
                    PyNone PyNone)) <= 2.
Proof.
  split; [reflexivity |].
  exact (bad_request_costs_no_inference Demo.runtime Demo.model "{oops"
           PyNone PyNone (LibraryError "JSONDecodeError") eq_refl).
Defined.

(** ** Where the weights are loaded from *)

Lemma model_fn_loads (R : Runtime) (params_path model_dir : string)
    (bert_model vocab net0 ctx : Obj R) :
  get_model R = Ok (bert_model, vocab) ->
  BertForQA R bert_model = Ok net0 ->
  cpu R = Ok ctx ->
  loads_weights_from R params_path model_dir net0 vocab ctx
    (if 0 <? String.length model_dir
     then (model_dir ++ "/" ++ params_path)%string
     else params_path).
Proof.
  intros G B C. unfold loads_weights_from, model_fn.
  rewrite G, !events_bind_call_ok, !outcome_bind_call_ok. cbn beta iota.
  rewrite B, !events_bind_call_ok, !outcome_bind_call_ok. cbn beta zeta.
  rewrite C, !events_bind_call_ok, !outcome_bind_call_ok.
  set (path := if 0 <? String.length model_dir
               then (model_dir ++ "/" ++ params_path)%string
               else params_path).
  destruct (load_parameters R net0 path ctx) as [net | e] eqn:L.
  - rewrite !events_bind_call_ok, !outcome_bind_call_ok.
    split; [simpl; tauto |]. split; [| split].
    + intros p r I.
      destruct I as [I | [I | [I | [I | I]]]]; try discriminate I.
      * now injection I as <- <-.
      * exfalso. revert I.
        destruct (BERTTokenizer R vocab) as [tokenizer | e'].
        -- rewrite events_bind_call_ok.
           destruct (SQuADTransform R tokenizer) as [transform | e''].
           ++ rewrite events_bind_call_ok. simpl. intuition discriminate.
           ++ rewrite events_bind_call_raise. simpl. intuition discriminate.
        -- rewrite events_bind_call_raise. simpl. intuition discriminate.
    + intros e D. discriminate D.
    + intros model E.
      bind_inv E as tokenizer Etok.
      bind_inv E as transform Etransform.
      rewrite outcome_ret in E. injection E as <-.
      now exists net, transform.
  - rewrite !events_bind_call_raise, !outcome_bind_call_raise.
    split; [simpl; tauto |]. split; [| split].
    + intros p r I.
      destruct I as [I | [I | [I | [I | []]]]]; try discriminate I.
      now injection I as <- <-.
    + intros e' D. now injection D as <-.
    + intros model D. discriminate D.
Qed.

(** C8. When [model_dir] is the empty string, [model_fn] loads the
    weights from [params_path] itself, and otherwise from
    [model_dir + "/" + params_path]: the loader is applied to the network
    built on the BERT model and to that path, no other load is made, a
    failure of that load is the failure of [model_fn], and the network of
    the returned handle is the one that load gave back. *)
Theorem model_fn_weights_path (R : Runtime)
    (params_path model_dir : string) :
  (model_dir = EmptyString ->
   forall bert_model vocab net0 ctx,
     get_model R = Ok (bert_model, vocab) ->
     BertForQA R bert_model = Ok net0 ->
     cpu R = Ok ctx ->
     loads_weights_from R params_path model_dir net0 vocab ctx params_path) /\
  (model_dir <> EmptyString ->
   forall bert_model vocab net0 ctx,
     get_model R = Ok (bert_model, vocab) ->
     BertForQA R bert_model = Ok net0 ->
     cpu R = Ok ctx ->
     loads_weights_from R params_path model_dir net0 vocab ctx
       (model_dir ++ "/" ++ params_path)%string) /\
  (model_dir = EmptyString ->
   forall p, In p (loaded_paths (events (model_fn R params_path model_dir)))
             -> p = params_path) /\
  (model_dir <> EmptyString ->
   forall p, In p (loaded_paths (events (model_fn R params_path model_dir)))
             -> p = (model_dir ++ "/" ++ params_path)%string) /\
  (forall bert_model vocab net ctx,
      get_model R = Ok (bert_model, vocab) ->
      BertForQA R bert_model = Ok net ->
      cpu R = Ok ctx ->
      length (loaded_paths (events (model_fn R params_path model_dir))) = 1) /\
  (forall model,
      outcome (model_fn R params_path model_dir) = Ok model ->
      length (loaded_paths (events (model_fn R params_path model_dir))) = 1).
Proof.
  assert (paths : exists n,
             loaded_paths (events (model_fn R params_path model_dir))
             = repeat (if 0 <? String.length model_dir
                       then (model_dir ++ "/" ++ params_path)%string
                       else params_path) n /\
             (forall bert_model vocab net ctx,
                 get_model R = Ok (bert_model, vocab) ->
                 BertForQA R bert_model = Ok net ->
                 cpu R = Ok ctx -> n = 1) /\
             (forall model,
                 outcome (model_fn R params_path model_dir) = Ok model ->
                 n = 1)).
  { unfold model_fn.
    step; [destruct a as [bert_model vocab]; cbn beta iota |
           exists 0; repeat split; intros; discriminate].
    step; [| exists 0; repeat split;
             [ intros bm v n c G B _; injection G as <- <-; congruence
             | intros model D; discriminate D ] ].
    step; [| exists 0; repeat split;
             [ intros bm v n c _ _ K; discriminate K
             | intros model D; discriminate D ] ].
    exists 1. split; [| now split].
    repeat step; reflexivity. }
  destruct paths as (n & -> & reached & returned).
  split; [| split; [| split; [| split; [| split]]]].
  - intros -> bert_model vocab net0 ctx G B C.
    exact (model_fn_loads R params_path EmptyString _ _ _ _ G B C).
  - intros N bert_model vocab net0 ctx G B C.
    pose proof (model_fn_loads R params_path model_dir _ _ _ _ G B C) as L.
    destruct model_dir; [congruence | exact L].
  - intros -> p I. now apply repeat_spec in I.
  - intros N p I. apply repeat_spec in I.
    destruct model_dir; [congruence | exact I].
  - intros bm vocab net ctx G B C.
    now rewrite repeat_length, (reached bm vocab net ctx G B C).
  - intros model E. now rewrite repeat_length, (returned model E).
Qed.

(** C8 with the default [model_dir] and with the hosting directory: the
    loader of the concrete runtime records the path it was given in the
    network it returns. *)
Lemma model_fn_weights_path_witness :
  loads_weights_from Demo.runtime "bert_qa-7eb11865.params" EmptyString
    (Demo.Net None) Demo.Vocab Demo.Ctx "bert_qa-7eb11865.params" /\
  loads_weights_from Demo.runtime "bert_qa-7eb11865.params" "/opt/ml/model"
    (Demo.Net None) Demo.Vocab Demo.Ctx
    "/opt/ml/model/bert_qa-7eb11865.params" /\
  outcome (model_fn Demo.runtime "bert_qa-7eb11865.params" EmptyString)
  = Ok (PyTuple [PyObj (Demo.Net (Some "bert_qa-7eb11865.params"));
                 PyObj Demo.Vocab; PyObj Demo.Transform]) /\
  outcome (model_fn Demo.runtime "bert_qa-7eb11865.params" "/opt/ml/model")
  = Ok (PyTuple
          [PyObj (Demo.Net (Some "/opt/ml/model/bert_qa-7eb11865.params"));
           PyObj Demo.Vocab; PyObj Demo.Transform]) /\
  outcome (model_fn Demo.runtime "bert_qa-7eb11865.params" "/nowhere")
  = Raise FileNotFoundError.
Proof.
  split; [| split; [| repeat split]].
  - apply (proj1 (model_fn_weights_path Demo.runtime
                    "bert_qa-7eb11865.params" EmptyString) eq_refl
             Demo.BertModel); reflexivity.
  - apply (proj1 (proj2 (model_fn_weights_path Demo.runtime
                           "bert_qa-7eb11865.params" "/opt/ml/model"))
             ltac:(discriminate) Demo.BertModel); reflexivity.
Defined.

(** ** A list of three strings for every feature *)

Section Three.

Variable R : Runtime.

Lemma dict_set_stored_three (f_id f_id' : ExampleId R) (v : list string)
    (d : list (ExampleId R * list string)) :
  length v = 3 ->
  stored_three R f_id d -> stored_three R f_id (dict_set R f_id' v d).
Proof.
  intros Lv (k & l & I & K & L). unfold stored_three.
  induction d as [| [k' w] d IH]; [destruct I |].
  simpl. destruct (eid_eqb R k' f_id') eqn:K'.
  - destruct I as [E | I].
    + injection E as -> ->. exists k, v. simpl. auto.
    + exists k, l. simpl. auto.
  - destruct I as [E | I].
    + injection E as -> ->. exists k, l. simpl. auto.
    + destruct (IH I) as (k1 & l1 & I1 & K1 & L1).
      exists k1, l1. simpl. auto.
Qed.

Lemma features_loop_keeps_three (vocab : value R) (all_results : Obj R)
    (steps : list (result (Obj R))) (f_id : ExampleId R)
    (acc d : list (ExampleId R * list string)) :
  outcome (features_loop R vocab all_results steps acc) = Ok d ->
  stored_three R f_id acc -> stored_three R f_id d.
Proof.
  revert acc. induction steps as [| step steps IH]; intros acc E S.
  - simpl in E. now injection E as <-.
  - destruct (features_loop_cons_inv _ _ _ _ _ _ _ E)
      as (features & f_id' & results & tokenizer & prediction & nbest
          & _ & _ & _ & _ & _ & L & _ & E').
    refine (IH _ E' _). apply dict_set_stored_three; [| exact S].
    rewrite length_map, length_firstn. lia.
Qed.

(** A returning loop answered every step, and holds three strings under
    the id of each. *)
Lemma features_loop_answers_each (vocab : value R) (all_results : Obj R)
    (steps : list (result (Obj R)))
    (acc d : list (ExampleId R * list string)) :
  outcome (features_loop R vocab all_results steps acc) = Ok d ->
  Forall (fun step =>
            answered R vocab all_results step /\
            forall features f_id,
              step = Ok features ->
              example_id R features = Ok f_id ->
              eid_eqb R f_id f_id = true ->
              stored_three R f_id d)
         steps.
Proof.
  revert acc. induction steps as [| step steps IH]; intros acc E.
  - constructor.
  - destruct (features_loop_cons_inv _ _ _ _ _ _ _ E)
      as (features & f_id & results & tokenizer & prediction & nbest
          & Estep & Eid & Eres & Etok & Epredict & L & _ & E').
    constructor; [| exact (IH _ E')].
    split.
    + now exists features, f_id, results, tokenizer, prediction, nbest.
    + intros features' f_id' Estep' Eid' Refl.
      rewrite Estep in Estep'. injection Estep' as <-.
      rewrite Eid in Eid'. injection Eid' as <-.
      refine (features_loop_keeps_three _ _ _ _ _ _ E' _).
      destruct (dict_set_stores R f_id
                  (map (entry_string R) (firstn 3 nbest)) acc Refl)
        as (k & I & K).
      exists k, (map (entry_string R) (firstn 3 nbest)).
      repeat split; try assumption.
      rewrite length_map, length_firstn. lia.
Qed.

(** The loop returns when every step is answered. *)
Lemma features_loop_returns (vocab : value R) (all_results : Obj R)
    (steps : list (result (Obj R)))
    (acc : list (ExampleId R * list string)) :
  Forall (answered R vocab all_results) steps ->
  exists d, outcome (features_loop R vocab all_results steps acc) = Ok d.
Proof.
  intro A. revert acc.
  induction A as [| step steps
                    (features & f_id & results & tokenizer & prediction
                     & nbest & -> & Eid & Eres & Etok & Epredict & L)
                    A IH]; intro acc.
  - now exists acc.
  - cbn [features_loop].
    rewrite outcome_bind_call_ok.
    rewrite Eid, outcome_bind_call_ok.
    rewrite Eres, outcome_bind_call_ok.
    rewrite Etok, outcome_bind_call_ok.
    rewrite Epredict, outcome_bind_call_ok.
    rewrite outcome_bind, (nbest_loop_three R nbest L).
    apply IH.
Qed.

End Three.

(** C6. On an n-best list with at least three entries the inner loop
    returns exactly three strings, those of the entries at indices 0, 1
    and 2; on a shorter list the unguarded index raises IndexError.  A
    loop over features that are all answered with at least three
    candidates returns, and when [transform_fn] returns, every feature it
    iterated over was answered with at least three candidates and a list
    of exactly three strings is stored under its id (an id that equals
    itself); no list of another length is stored. *)
Theorem three_predictions_per_example (R : Runtime) :
  (forall nbest : list (string * Prob R),
      3 <= length nbest ->
      exists l : list string,
        outcome (nbest_loop R nbest (seq 0 3) []) = Ok l /\
        length l = 3 /\
        forall i, i < 3 ->
          nth_error l i = option_map (entry_string R) (nth_error nbest i)) /\
  (forall nbest : list (string * Prob R),
      length nbest < 3 ->
      outcome (nbest_loop R nbest (seq 0 3) []) = Raise IndexError) /\
  (forall (model : value R) (input_data : string)
          (all_predictions : list (ExampleId R * list string)),
      outcome (transform_fn_predictions R model input_data)
      = Ok all_predictions ->
      forall (f_id : ExampleId R) (l : list string),
        In (f_id, l) all_predictions ->
        length l = 3 /\
        exists features results tokenizer prediction nbest,
          predict R features results tokenizer = Ok (prediction, nbest) /\
          3 <= length nbest /\
          forall i, i < 3 ->
            nth_error l i = option_map (entry_string R) (nth_error nbest i)) /\
  (forall (vocab : value R) (all_results : Obj R)
          (steps : list (result (Obj R)))
          (acc : list (ExampleId R * list string)),
      Forall (answered R vocab all_results) steps ->
      exists d, outcome (features_loop R vocab all_results steps acc) = Ok d) /\
  (forall (model : value R) (input_data : string)
          (all_predictions : list (ExampleId R * list string)),
      outcome (transform_fn_predictions R model input_data)
      = Ok all_predictions ->
      exists vocab all_results data_transform,
        reaches_loop R model input_data vocab all_results data_transform /\
        Forall (fun step =>
                  answered R vocab all_results step /\
                  forall features f_id,
                    step = Ok features ->
                    example_id R features = Ok f_id ->
                    eid_eqb R f_id f_id = true ->
                    stored_three R f_id all_predictions)
               (iterate R data_transform)).
Proof.
  assert (first_three : forall nbest : list (string * Prob R),
             3 <= length nbest ->
             length (map (entry_string R) (firstn 3 nbest)) = 3 /\
             forall i, i < 3 ->
               nth_error (map (entry_string R) (firstn 3 nbest)) i
               = option_map (entry_string R) (nth_error nbest i)).
  { intros [| a [| b [| c rest]]] L; simpl in L; try lia.
    split; [reflexivity |].
    intros [| [| [| i]]] Hi; try reflexivity; lia. }
  split; [| split; [| split; [| split]]].
  - intros nbest L. exists (map (entry_string R) (firstn 3 nbest)).
    rewrite (nbest_loop_three R nbest L).
    split; [reflexivity | now apply first_three].
  - apply nbest_loop_short.
  - intros model input_data all_predictions E f_id l I.
    destruct (transform_fn_predictions_stored _ _ _ _ E _ _ I)
      as (features & results & tokenizer & prediction & nbest & P & L & ->).
    destruct (first_three nbest L) as [Len Nth].
    split; [exact Len |].
    now exists features, results, tokenizer, prediction, nbest.
  - intros vocab all_results steps acc A.
    now apply features_loop_returns.
  - intros model input_data all_predictions E.
    destruct (transform_fn_predictions_inv _ _ _ _ E)
      as (net & vocab & squadTransform & data & tuples & test_dataset & ctx
          & all_results & fn & data_transform
          & E1 & E2 & E3 & E4 & E5 & E6 & E7 & E8 & Eloop & _).
    exists vocab, all_results, data_transform. split.
    + now exists net, squadTransform, data, tuples, test_dataset, ctx, fn.
    + exact (features_loop_answers_each _ _ _ _ _ _ Eloop).
Qed.

(** C6 on the request of the test cell, whose two features are both
    answered and have three strings each, and on the n-best list of a
    third example, which has one entry. *)
Lemma three_predictions_per_example_witness :
  outcome (transform_fn_predictions Demo.runtime Demo.model Demo.request)
  = Ok Demo.predictions /\
  (exists vocab all_results data_transform,
      reaches_loop Demo.runtime Demo.model Demo.request
        vocab all_results data_transform /\
      Forall (fun step =>
                answered Demo.runtime vocab all_results step /\
                forall features f_id,
                  step = Ok features ->
                  example_id Demo.runtime features = Ok f_id ->
                  eid_eqb Demo.runtime f_id f_id = true ->
                  stored_three Demo.runtime f_id Demo.predictions)
             (iterate Demo.runtime data_transform)) /\
  (exists l : list string,
      outcome (nbest_loop Demo.runtime (Demo.nbest_table 1) (seq 0 3) [])
      = Ok l /\
      length l = 3 /\
      forall i, i < 3 ->
        nth_error l i
        = option_map (entry_string Demo.runtime)
            (nth_error (Demo.nbest_table 1) i)) /\
  outcome (nbest_loop Demo.runtime (Demo.nbest_table 2) (seq 0 3) [])
  = Raise IndexError.
Proof.
  destruct (three_predictions_per_example Demo.runtime)
    as (enough & short & _ & _ & each).
  assert (E : outcome (transform_fn_predictions Demo.runtime Demo.model
                         Demo.request) = Ok Demo.predictions)
    by (vm_compute; reflexivity).
  split; [exact E |]. split; [exact (each _ _ _ E) |]. split.
  - apply (enough (Demo.nbest_table 1)). simpl. lia.
  - apply (short (Demo.nbest_table 2)). simpl. lia.
Defined.

(** ** Which exceptions come out of the callbacks *)

Section Failures.

Variable R : Runtime.

Lemma transform_fn_outcome (model : value R) (input_data : string)
    (ict oct : value R) :
  outcome (transform_fn R model input_data ict oct)
  = match outcome (transform_fn_predictions R model input_data) with
    | Ok d => result_map (fun body => (body, oct)) (json_dumps R d)
    | Raise e => Raise e
    end.
Proof.
  unfold transform_fn. rewrite outcome_bind.
  destruct (outcome (transform_fn_predictions R model input_data))
    as [d | e]; [| reflexivity].
  rewrite outcome_bind, outcome_call.
  now destruct (json_dumps R d).
Qed.

Lemma reaches_loop_outcome (model : value R) (input_data : string)
    (vocab : value R) (all_results data_transform : Obj R) :
  reaches_loop R model input_data vocab all_results data_transform ->
  outcome (transform_fn_predictions R model input_data)
  = outcome (features_loop R vocab all_results
               (iterate R data_transform) []).
Proof.
  intros (net & squadTransform & data & tuples & test_dataset & ctx & fn
          & E1 & E2 & E3 & E4 & E5 & E6 & E7 & E8).
  unfold transform_fn_predictions.
  rewrite E1, outcome_bind_call_ok. cbn beta iota.
  rewrite E2, outcome_bind_call_ok.
  rewrite E3, outcome_bind_call_ok.
  rewrite E4, outcome_bind_call_ok.
  rewrite E5, outcome_bind_call_ok.
  rewrite E6, outcome_bind_call_ok.
  rewrite E7, outcome_bind_call_ok.
  rewrite E8, outcome_bind_call_ok.
  reflexivity.
Qed.

Lemma fails_before_loop_outcome (model : value R) (input_data : string)
    (e : exn) :
  fails_before_loop R model input_data e ->
  outcome (transform_fn_predictions R model input_data) = Raise e.
Proof.
  unfold transform_fn_predictions.
  intro F. destruct F;
    repeat match goal with
           | E : _ = Ok _ |- _ =>
               rewrite E, outcome_bind_call_ok; cbn beta iota; clear E
           end;
    match goal with
    | E : _ = Raise _ |- _ => rewrite E; apply outcome_bind_call_raise
    end.
Qed.

(** The loop receives the accesses it got through unchanged. *)
Lemma received_after (vocab : value R) (all_results : Obj R)
    (pre rest : list (result (Obj R)))
    (acc d : list (ExampleId R * list string)) :
  outcome (features_loop R vocab all_results pre acc) = Ok d ->
  received (pre ++ rest) = pre ++ received rest.
Proof.
  intro E. apply features_loop_answers_each in E.
  induction E as [| step pre [(features & f_id & results & tokenizer
                               & prediction & nbest & -> & _) _] E IH].
  - reflexivity.
  - simpl. now rewrite IH.
Qed.

Lemma iteration_fails_outcome (vocab : value R) (all_results : Obj R)
    (access : result (Obj R)) (post : list (result (Obj R))) (e : exn)
    (acc : list (ExampleId R * list string)) :
  iteration_fails R vocab all_results access e ->
  outcome (features_loop R vocab all_results (received (access :: post)) acc)
  = Raise e.
Proof.
  intro F. destruct F as [e N | features e Eid | features f_id e Eid Eres
                          | features f_id results e Eid Eres Etok
                          | features f_id results tokenizer e
                              Eid Eres Etok Epredict
                          | features f_id results tokenizer prediction nbest
                              Eid Eres Etok Epredict L];
    cbn [received]; [rewrite N |..]; cbn [features_loop].
  - apply outcome_bind_call_raise.
  - rewrite outcome_bind_call_ok, Eid. apply outcome_bind_call_raise.
  - rewrite outcome_bind_call_ok, Eid, outcome_bind_call_ok, Eres.
    apply outcome_bind_call_raise.
  - rewrite outcome_bind_call_ok, Eid, outcome_bind_call_ok, Eres,
      outcome_bind_call_ok, Etok.
    apply outcome_bind_call_raise.
  - rewrite outcome_bind_call_ok, Eid, outcome_bind_call_ok, Eres,
      outcome_bind_call_ok, Etok, outcome_bind_call_ok, Epredict.
    apply outcome_bind_call_raise.
  - rewrite outcome_bind_call_ok, Eid, outcome_bind_call_ok, Eres,
      outcome_bind_call_ok, Etok, outcome_bind_call_ok, Epredict,
      outcome_bind_call_ok.
    now rewrite outcome_bind, (nbest_loop_short R nbest L).
Qed.

(** The body of [transform_fn] on a dataset whose accesses are
    [pre ++ access :: post], the loop having got through [pre]. *)
Lemma loop_after_prefix (model : value R) (input_data : string)
    (vocab : value R) (all_results data_transform : Obj R)
    (pre : list (result (Obj R))) (access : result (Obj R))
    (post : list (result (Obj R)))
    (d1 : list (ExampleId R * list string)) :
  reaches_loop R model input_data vocab all_results data_transform ->
  getitems R data_transform = pre ++ access :: post ->
  outcome (features_loop R vocab all_results pre []) = Ok d1 ->
  outcome (transform_fn_predictions R model input_data)
  = outcome (features_loop R vocab all_results
               (received (access :: post)) d1).
Proof.
  intros Reach G Epre.
  rewrite (reaches_loop_outcome _ _ _ _ _ Reach). unfold iterate.
  rewrite G, (received_after _ _ _ _ _ _ Epre), features_loop_app.
  now rewrite outcome_bind, Epre.
Qed.

End Failures.




(** ** Processes *)

Lemma processes_app (t t' : trace) :
  processes (t ++ t') = processes t ++ processes t'.
Proof. unfold processes. now rewrite map_app, filter_app. Qed.

Lemma processes_ret (A : Type) (a : A) : processes (events (ret a)) = [].
Proof. reflexivity. Qed.

Lemma processes_call (A : Type) (o : op) (r : result A) :
  starts_process o = false -> processes (events (call o r)) = [].
Proof.
  intro N. rewrite events_call. unfold processes. simpl. now rewrite N.
Qed.

Lemma processes_bind (A B : Type) (m : M A) (f : A -> M B) :
  processes (events m) = [] ->
  (forall a, processes (events (f a)) = []) ->
  processes (events (bind m f)) = [].
Proof.
  intros Em Ef. rewrite events_bind, processes_app, Em.
  destruct (outcome m) as [a | e]; [apply Ef | reflexivity].
Qed.

(** A block of calls none of which is a shell escape. *)
Ltac no_process :=
  repeat first
    [ apply processes_ret
    | apply processes_call; reflexivity
    | apply processes_bind; [| intros ]
    | progress cbv zeta
    | match goal with
      | |- context [match ?x with _ => _ end] => is_var x; destruct x
      end ].

Lemma nbest_loop_processes (R : Runtime) (nbest : list (string * Prob R))
    (range : list nat) (acc : list string) :
  processes (events (nbest_loop R nbest range acc)) = [].
Proof.
  revert acc. induction range as [| i range IH]; intro acc;
    cbn [nbest_loop]; no_process. apply IH.
Qed.

Lemma features_loop_processes (R : Runtime) (vocab : value R)
    (all_results : Obj R) (steps : list (result (Obj R)))
    (acc : list (ExampleId R * list string)) :
  processes (events (features_loop R vocab all_results steps acc)) = [].
Proof.
  revert acc. induction steps as [| step steps IH]; intro acc;
    cbn [features_loop]; no_process;
    first [apply nbest_loop_processes | apply IH].
Qed.



(** ** A handle that does not unpack *)

(** A string is unpacked character by character, not byte by byte: a
    text of three characters, one of them encoded on three bytes, gives
    three items. *)
Example three_characters_unpack :
  let dash :=
    String (ascii_of_nat 226)
      (String (ascii_of_nat 128) (String (ascii_of_nat 147) EmptyString)) in
  characters ("a" ++ dash ++ "b") = ["a"; dash; "b"] /\
  @unpack3 Demo.runtime (PyStr ("a" ++ dash ++ "b"))
  = Ok (PyStr "a", PyStr dash, PyStr "b").
Proof. split; reflexivity. Qed.

(** A library object is unpacked through the library: a dataset of three
    rows gives its rows, a vocabulary raises TypeError. *)
Example library_objects_unpack :
  @unpack3 Demo.runtime (PyObj (Demo.Dataset Demo.rows3))
  = Ok (PyObj (Demo.Row 0 "Who won?" "Denver won."),
        PyObj (Demo.Row 1 "Where?" "At Levi's Stadium."),
        PyObj (Demo.Row 2 "When?" "In 2016.")) /\
  @unpack3 Demo.runtime (PyObj Demo.Vocab) = Raise TypeError.
Proof. split; reflexivity. Qed.

(** X8.  A handle that does not hold exactly three items stops
    [transform_fn] at its first line, before the request is read and
    before any library call: the only event is the failed unpacking.  The
    exception is ValueError when the handle can be iterated (a tuple, a
    list, a string read character by character, a library object that
    gives its items) and gives another number of items, and it is the
    exception of the iteration otherwise, a TypeError for [None]. *)
Theorem transform_fn_rejects_bad_handle (R : Runtime) (model : value R)
    (input_data : string) (ict oct : value R) :
  (forall a b c, iter_items model <> Ok [a; b; c]) ->
  exists e,
    transform_fn R model input_data ict oct
    = ([(OpUnpackModel, Some e)], Raise e) /\
    (forall items, iter_items model = Ok items -> e = ValueError) /\
    (forall e', iter_items model = Raise e' -> e = e') /\
    (model = PyNone -> e = TypeError).
Proof.
  intro N.
  assert (U : exists e, unpack3 model = Raise e /\
                (forall items, iter_items model = Ok items ->
                               e = ValueError) /\
                (forall e', iter_items model = Raise e' -> e = e')).
  { unfold unpack3.
    destruct (iter_items model) as [items | e0] eqn:I.
    - exists ValueError.
      destruct items as [| a [| b [| c [| d rest]]]];
        try (split; [reflexivity | split; [reflexivity | discriminate]]).
      now destruct (N a b c).
    - exists e0. split; [reflexivity | split; [discriminate |]].
      now intros e' [= ->]. }
  destruct U as (e & U & V & W). exists e.
  split; [| split; [exact V | split; [exact W |]]].
  - unfold transform_fn, transform_fn_predictions. now rewrite U.
  - intros ->. now apply W.
Qed.

(** X8 on a handle of two items and on a handle that is a vocabulary. *)
Lemma transform_fn_rejects_bad_handle_witness :
  transform_fn Demo.runtime (PyTuple [PyObj Demo.Vocab; PyObj Demo.Transform])
    Demo.request PyNone PyNone
  = ([(OpUnpackModel, Some ValueError)], Raise ValueError) /\
  transform_fn Demo.runtime (PyObj Demo.Vocab) Demo.request PyNone PyNone
  = ([(OpUnpackModel, Some TypeError)], Raise TypeError).
Proof.
  split.
  - destruct (transform_fn_rejects_bad_handle Demo.runtime
                (PyTuple [PyObj Demo.Vocab; PyObj Demo.Transform])
                Demo.request PyNone PyNone) as (e & E & V & _).
    + intros a b c. discriminate.
    + rewrite E. now rewrite (V _ eq_refl).
  - destruct (transform_fn_rejects_bad_handle Demo.runtime
                (PyObj Demo.Vocab)
                Demo.request PyNone PyNone) as (e & E & _ & W & _).
    + intros a b c. discriminate.
    + rewrite E. now rewrite (W TypeError eq_refl).
Defined.
